(** * LayerInfoV2: the per-layer frame-cadence estimator of SurfaceFlinger

    A shallow embedding of
    [services/surfaceflinger/Scheduler/LayerInfoV2.cpp] and the properties
    of its history buffer, its refresh-rate heuristic and its vote
    resolution.

    Conventions.
    - [nsecs_t] is a signed 64-bit integer: a [Z] whose additions and
      subtractions are wrapped by [Int64.wrap].
    - [size_t] is an unsigned 64-bit integer; container sizes are [nat]
      and the one subtraction the code performs on a size is wrapped by
      [SizeT.wrap].
    - [float] is IEEE-754 binary32 with round-to-nearest-even, taken from
      the Standard Library's [SpecFloat] at precision 24 and [emax] 128.
    - [std::deque<FrameTimeData>] is a [list], oldest sample first.
      [front()], [back()] and dereferencing an iterator are partial: on a
      position that holds no element they yield [OutOfBounds], which stands
      for the undefined behaviour of the C++ access.
    - The constants [HISTORY_SIZE], [FREQUENT_LAYER_WINDOW_SIZE],
      [MAX_FREQUENT_LAYER_PERIOD_NS] and [HISTORY_TIME] are declared in
      [LayerInfoV2.h]; they are parameters of the model. *)

From Stdlib Require Import ZArith List Bool Lia Sorted.
From Stdlib Require Import Floats.SpecFloat.
Import ListNotations.

Local Open Scope Z_scope.

(** ** Machine arithmetic *)

Module Int64.

Definition min_signed : Z := - 2 ^ 63.
Definition max_signed : Z := 2 ^ 63 - 1.

(** Two's complement wrap-around into [min_signed .. max_signed]. *)
Definition wrap (z : Z) : Z := (z + 2 ^ 63) mod 2 ^ 64 - 2 ^ 63.

Definition add (a b : Z) : Z := wrap (a + b).
Definition sub (a b : Z) : Z := wrap (a - b).

Definition in_range (z : Z) : Prop := min_signed <= z <= max_signed.

End Int64.

Module SizeT.

Definition max_unsigned : Z := 2 ^ 64 - 1.

Definition in_range (z : Z) : Prop := 0 <= z <= max_unsigned.

Definition wrap (z : Z) : Z := z mod 2 ^ 64.
Definition sub (a b : Z) : Z := wrap (a - b).

End SizeT.

(** IEEE-754 binary32, the C++ [float]. *)
Module F32.

Definition prec : Z := 24.
Definition emax : Z := 128.

Definition t : Type := spec_float.

(** Conversion from an integer ([static_cast<float>] and the implicit
    integer-to-float conversions), rounding to nearest even. *)
Definition of_Z (z : Z) : t := binary_normalize prec emax z 0 false.

Definition zero : t := S754_zero false.

Definition sub (x y : t) : t := SFsub prec emax x y.
Definition mul (x y : t) : t := SFmul prec emax x y.
Definition div (x y : t) : t := SFdiv prec emax x y.
Definition abs (x : t) : t := SFabs x.

(** [x > y]; false as soon as one side is a NaN. *)
Definition gtb (x y : t) : bool := SFltb y x.

End F32.

(** ** Partial accesses *)

Inductive result (A : Type) : Type :=
| Ok (a : A)
| OutOfBounds.

Arguments Ok {A} a.
Arguments OutOfBounds {A}.

Definition bind {A B : Type} (c : result A) (k : A -> result B) : result B :=
  match c with
  | Ok a => k a
  | OutOfBounds => OutOfBounds
  end.

Notation "x <- c ;; k" := (bind c (fun x => k))
  (at level 61, c at next level, right associativity).

Definition deref {A : Type} (o : option A) : result A :=
  match o with
  | Some a => Ok a
  | None => OutOfBounds
  end.

(** ** The deque *)

Section Deque.

Context {A : Type}.

Definition push_back (d : list A) (x : A) : list A := d ++ [x].

Definition pop_front (d : list A) : list A := tl d.

Definition front (d : list A) : result A := deref (hd_error d).

Fixpoint back_opt (d : list A) : option A :=
  match d with
  | [] => None
  | x :: rest =>
      match rest with
      | [] => Some x
      | _ :: _ => back_opt rest
      end
  end.

Definition back (d : list A) : result A := deref (back_opt d).

(** The element an iterator [begin() + i] points to. *)
Definition at_index (d : list A) (i : nat) : result A :=
  deref (nth_error d i).

(** The adjacent pairs [(d[i], d[i+1])], in order. *)
Fixpoint pairs (d : list A) : list (A * A) :=
  match d with
  | [] => []
  | x :: rest =>
      match rest with
      | [] => []
      | y :: _ => (x, y) :: pairs rest
      end
  end.

(** The newest [k] elements of [d]. *)
Definition lastn (k : nat) (d : list A) : list A :=
  skipn (length d - k) d.

End Deque.

(** ** Data *)

(** Modelled from the spec: the enumeration [LayerHistory::LayerVoteType] is
    declared in [LayerHistory.h]; the spec lists the kinds [Heuristic], [Min],
    [Max] and further explicit kinds, kept apart by a tag. *)
Inductive LayerVoteType : Type :=
| Heuristic
| Min
| Max
| Explicit (tag : nat).

Definition LayerVoteType_eqb (a b : LayerVoteType) : bool :=
  match a, b with
  | Heuristic, Heuristic => true
  | Min, Min => true
  | Max, Max => true
  | Explicit m, Explicit n => Nat.eqb m n
  | _, _ => false
  end.

Record FrameTimeData : Type := mkFrameTimeData {
  presetTime : Z;
  queueTime : Z
}.

Record LayerVote : Type := mkLayerVote {
  type : LayerVoteType;
  fps : F32.t
}.

Record LayerInfoV2 : Type := mkLayerInfoV2 {
  mHighRefreshRatePeriod : Z;
  mDefaultVote : LayerVoteType;
  mLastUpdatedTime : Z;
  mLastReportedRefreshRate : F32.t;
  mLayerVote : LayerVote;
  mFrameTimes : list FrameTimeData
}.

Definition set_mLastReportedRefreshRate (r : F32.t) (s : LayerInfoV2)
  : LayerInfoV2 :=
  {| mHighRefreshRatePeriod := mHighRefreshRatePeriod s;
     mDefaultVote := mDefaultVote s;
     mLastUpdatedTime := mLastUpdatedTime s;
     mLastReportedRefreshRate := r;
     mLayerVote := mLayerVote s;
     mFrameTimes := mFrameTimes s |}.

(** The constructor.  [mLastUpdatedTime] and [mLastReportedRefreshRate] get
    their default member initialisers (zero), [mFrameTimes] starts empty. *)
Definition LayerInfoV2_new (highRefreshRatePeriod : Z)
    (defaultVote : LayerVoteType) : LayerInfoV2 :=
  {| mHighRefreshRatePeriod := highRefreshRatePeriod;
     mDefaultVote := defaultVote;
     mLastUpdatedTime := 0;
     mLastReportedRefreshRate := F32.zero;
     mLayerVote := {| type := defaultVote; fps := F32.zero |};
     mFrameTimes := [] |}.

(** ** The methods *)

Definition MARGIN : F32.t := F32.of_Z 1.

Definition ONE_SECOND_IN_NS : F32.t := F32.of_Z 1000000000.

(** [std::max((it + 1)->presetTime - it->presetTime, mHighRefreshRatePeriod)] *)
Definition presentTimeDelta (highRefreshRatePeriod : Z)
    (cur next : FrameTimeData) : Z :=
  Z.max (Int64.sub (presetTime next) (presetTime cur)) highRefreshRatePeriod.

(** The first loop of [calculateRefreshRateIfPossible]; [it] is the part of
    the deque from the iterator on, [total] is [totalPresentTimeDeltas].
    [Ok None] is the early [return std::nullopt]. *)
Fixpoint sumPresentTimeDeltas (highRefreshRatePeriod : Z)
    (it : list FrameTimeData) (total : Z) : result (option Z) :=
  match it with
  | [] => OutOfBounds
  | cur :: rest =>
      match rest with
      | [] => Ok (Some total)
      | next :: _ =>
          if (presetTime cur =? 0) || (presetTime next =? 0)
          then Ok None
          else sumPresentTimeDeltas highRefreshRatePeriod rest
                 (Int64.add total
                    (presentTimeDelta highRefreshRatePeriod cur next))
      end
  end.

(** [std::abs(presentTimeDeltas - averageFrameTime) > 2 * averageFrameTime] *)
Definition deviates (averageFrameTime : F32.t) (presentTimeDeltas : Z) : bool :=
  F32.gtb (F32.abs (F32.sub (F32.of_Z presentTimeDeltas) averageFrameTime))
          (F32.mul (F32.of_Z 2) averageFrameTime).

(** The second loop; [Ok false] is its [return std::nullopt]. *)
Fixpoint framesEvenlyDistributed (highRefreshRatePeriod : Z)
    (averageFrameTime : F32.t) (it : list FrameTimeData) : result bool :=
  match it with
  | [] => OutOfBounds
  | cur :: rest =>
      match rest with
      | [] => Ok true
      | next :: _ =>
          if deviates averageFrameTime
               (presentTimeDelta highRefreshRatePeriod cur next)
          then Ok false
          else framesEvenlyDistributed highRefreshRatePeriod
                 averageFrameTime rest
      end
  end.

(** [std::abs(refreshRate - mLastReportedRefreshRate) > MARGIN] *)
Definition exceedsMargin (refreshRate lastReported : F32.t) : bool :=
  F32.gtb (F32.abs (F32.sub refreshRate lastReported)) MARGIN.

Section Methods.

Variable HISTORY_SIZE : nat.
Variable FREQUENT_LAYER_WINDOW_SIZE : nat.
Variable MAX_FREQUENT_LAYER_PERIOD_NS : Z.
Variable HISTORY_TIME : Z.
Variable getActiveLayerThreshold : Z -> Z.

Definition setLastPresentTime (lastPresentTime now : Z) (s : LayerInfoV2)
  : LayerInfoV2 :=
  let lastPresentTime := Z.max lastPresentTime 0 in
  let lastUpdatedTime := Z.max lastPresentTime now in
  let frameTime :=
    {| presetTime := lastPresentTime; queueTime := lastUpdatedTime |} in
  let frameTimes := push_back (mFrameTimes s) frameTime in
  {| mHighRefreshRatePeriod := mHighRefreshRatePeriod s;
     mDefaultVote := mDefaultVote s;
     mLastUpdatedTime := lastUpdatedTime;
     mLastReportedRefreshRate := mLastReportedRefreshRate s;
     mLayerVote := mLayerVote s;
     mFrameTimes :=
       if (HISTORY_SIZE <? length frameTimes)%nat
       then pop_front frameTimes
       else frameTimes |}.

Definition isRecentlyActive (now : Z) (s : LayerInfoV2) : result bool :=
  match mFrameTimes s with
  | [] => Ok false
  | _ :: _ =>
      newest <- back (mFrameTimes s) ;;
      Ok (getActiveLayerThreshold now <=? queueTime newest)
  end.

Definition isFrequent (now : Z) (s : LayerInfoV2) : result bool :=
  let size := length (mFrameTimes s) in
  if (size <? FREQUENT_LAYER_WINDOW_SIZE)%nat then Ok true
  else
    let threshold := Int64.sub now MAX_FREQUENT_LAYER_PERIOD_NS in
    it <- at_index (mFrameTimes s) (size - FREQUENT_LAYER_WINDOW_SIZE) ;;
    Ok (threshold <=? queueTime it).

Definition hasEnoughDataForHeuristic (s : LayerInfoV2) : result bool :=
  if (length (mFrameTimes s) <? HISTORY_SIZE)%nat then
    newest <- back (mFrameTimes s) ;;
    oldest <- front (mFrameTimes s) ;;
    if Int64.sub (queueTime newest) (queueTime oldest) <? HISTORY_TIME
    then Ok false
    else Ok true
  else Ok true.

Definition calculateRefreshRateIfPossible (s : LayerInfoV2)
  : result (option F32.t * LayerInfoV2) :=
  enough <- hasEnoughDataForHeuristic s ;;
  if negb enough then Ok (None, s)
  else
    total <- sumPresentTimeDeltas (mHighRefreshRatePeriod s)
               (mFrameTimes s) 0 ;;
    match total with
    | None => Ok (None, s)
    | Some totalPresentTimeDeltas =>
        let averageFrameTime :=
          F32.div (F32.of_Z totalPresentTimeDeltas)
            (F32.of_Z
               (SizeT.sub (Z.of_nat (length (mFrameTimes s))) 1)) in
        even <- framesEvenlyDistributed (mHighRefreshRatePeriod s)
                  averageFrameTime (mFrameTimes s) ;;
        if negb even then Ok (None, s)
        else
          let refreshRate := F32.div ONE_SECOND_IN_NS averageFrameTime in
          let s' :=
            if exceedsMargin refreshRate (mLastReportedRefreshRate s)
            then set_mLastReportedRefreshRate refreshRate s
            else s in
          Ok (Some (mLastReportedRefreshRate s'), s')
    end.

Definition getRefreshRate (now : Z) (s : LayerInfoV2)
  : result ((LayerVoteType * F32.t) * LayerInfoV2) :=
  if negb (LayerVoteType_eqb (type (mLayerVote s)) Heuristic)
  then Ok ((type (mLayerVote s), fps (mLayerVote s)), s)
  else
    frequent <- isFrequent now s ;;
    if negb frequent then Ok ((Min, F32.zero), s)
    else
      r <- calculateRefreshRateIfPossible s ;;
      match r with
      | (Some refreshRate, s') => Ok ((Heuristic, refreshRate), s')
      | (None, s') => Ok ((Max, F32.zero), s')
      end.

(** A run of [setLastPresentTime] calls, each given as
    [(lastPresentTime, now)], oldest call first. *)
Definition recordAll (calls : list (Z * Z)) (s : LayerInfoV2) : LayerInfoV2 :=
  fold_left (fun st c => setLastPresentTime (fst c) (snd c) st) calls s.

End Methods.

(** ** Quantities the properties are stated with *)

(** The sample a call [setLastPresentTime lastPresentTime now] stores. *)
Definition sampleOf (c : Z * Z) : FrameTimeData :=
  {| presetTime := Z.max (fst c) 0;
     queueTime := Z.max (Z.max (fst c) 0) (snd c) |}.

Definition queueTimes (s : LayerInfoV2) : list Z :=
  map queueTime (mFrameTimes s).

(** The deltas [d_i] of the adjacent pairs, oldest pair first. *)
Definition pairDelta (highRefreshRatePeriod : Z)
    (p : FrameTimeData * FrameTimeData) : Z :=
  presentTimeDelta highRefreshRatePeriod (fst p) (snd p).

Definition deltas (s : LayerInfoV2) : list Z :=
  map (pairDelta (mHighRefreshRatePeriod s)) (pairs (mFrameTimes s)).

(** The sum of a list of [nsecs_t] values, accumulated as the code does. *)
Definition sum64 (ds : list Z) : Z := fold_left Int64.add ds 0.

(** [averageDelta = sum(d_i) / (count - 1)], in [float]. *)
Definition averageDelta (s : LayerInfoV2) : F32.t :=
  F32.div (F32.of_Z (sum64 (deltas s)))
          (F32.of_Z (SizeT.sub (Z.of_nat (length (mFrameTimes s))) 1)).

(** [candidateRate = 1e9 / averageDelta]. *)
Definition candidateRate (s : LayerInfoV2) : F32.t :=
  F32.div ONE_SECOND_IN_NS (averageDelta s).

(** A pair one of whose samples carries the sentinel present time. *)
Definition hasSentinel (p : FrameTimeData * FrameTimeData) : Prop :=
  presetTime (fst p) = 0 \/ presetTime (snd p) = 0.

Definition hasSentinelb (p : FrameTimeData * FrameTimeData) : bool :=
  (presetTime (fst p) =? 0) || (presetTime (snd p) =? 0).

(** The state [calculateRefreshRateIfPossible] leaves behind once it has
    computed [refreshRate]: the reported rate follows only a change of more
    than [MARGIN]. *)
Definition report (refreshRate : F32.t) (s : LayerInfoV2) : LayerInfoV2 :=
  if exceedsMargin refreshRate (mLastReportedRefreshRate s)
  then set_mLastReportedRefreshRate refreshRate s
  else s.

(** Two consecutive calls [(lastPresentTime, now)] are in order when [now]
    does not go back and the earlier present time is not ahead of both the
    present time and the [now] of the later call. *)
Definition callsInOrder (c1 c2 : Z * Z) : Prop :=
  snd c1 <= snd c2 /\ fst c1 <= Z.max (fst c2) (snd c2).

(** Two states that differ at most in [mLastReportedRefreshRate]. *)
Definition sameButReportedRate (s s' : LayerInfoV2) : Prop :=
  s' = set_mLastReportedRefreshRate (mLastReportedRefreshRate s') s.

(** ** Invariants of the recorded samples *)

(** What every sample stored by [setLastPresentTime] satisfies. *)
Definition sampleWellFormed (f : FrameTimeData) : Prop :=
  0 <= presetTime f <= queueTime f.

(** A present time that is a non-negative [nsecs_t]. *)
Definition presentTimeInRange (f : FrameTimeData) : Prop :=
  0 <= presetTime f <= Int64.max_signed.

(** The delta of a pair computed over the integers, without wrap-around. *)
Definition exactDelta (highRefreshRatePeriod : Z)
    (p : FrameTimeData * FrameTimeData) : Z :=
  Z.max (presetTime (snd p) - presetTime (fst p)) highRefreshRatePeriod.

Definition isNaN (x : F32.t) : bool :=
  match x with
  | S754_nan => true
  | _ => false
  end.

(** [it->queueTime >= now - MAX_FREQUENT_LAYER_PERIOD_NS.count()] *)
Definition withinFrequentPeriod (maxFrequentLayerPeriod now : Z)
    (f : FrameTimeData) : bool :=
  Int64.sub now maxFrequentLayerPeriod <=? queueTime f.

(** ** The formulas of the heuristic, read in machine arithmetic

    The quantities of the heuristic written out from their formulas, on
    the Standard Library's operations directly: integers reduced to
    [nsecs_t] and [size_t], rates and averages in binary32. *)

Module Claimed.

(** The [nsecs_t] that is congruent to [z] modulo [2^64]; [z] itself when
    [z] is an [nsecs_t]. *)
Definition toInt64 (z : Z) : Z :=
  let r := z mod 2 ^ 64 in
  if r <? 2 ^ 63 then r else r - 2 ^ 64.

(** The [size_t] that is congruent to [z] modulo [2^64]. *)
Definition toSize (z : Z) : Z := z mod 2 ^ 64.

(** The binary32 nearest to the integer [z], ties to even. *)
Definition binary32 (z : Z) : spec_float := binary_normalize 24 128 z 0 false.

(** 1.0, 2.0 and 1e9 in binary32. *)
Definition one : spec_float := S754_finite false 8388608 (-23).
Definition two : spec_float := S754_finite false 8388608 (-22).
Definition nanosecondsPerSecond : spec_float := S754_finite false 15625000 6.

(** [d_i = max (presentTime_{i+1} - presentTime_i, highRefreshRatePeriod)] *)
Definition delta (highRefreshRatePeriod : Z) (cur next : FrameTimeData) : Z :=
  Z.max (toInt64 (presetTime next - presetTime cur)) highRefreshRatePeriod.

Definition deltas (highRefreshRatePeriod : Z) (frames : list FrameTimeData)
  : list Z :=
  map (fun p => delta highRefreshRatePeriod (fst p) (snd p)) (pairs frames).

(** The sum of all [d_i], as an [nsecs_t]. *)
Definition total (ds : list Z) : Z := toInt64 (fold_right Z.add 0 ds).

(** [averageDelta = sum (d_i) / (count - 1)] *)
Definition averageDelta (highRefreshRatePeriod : Z)
    (frames : list FrameTimeData) : spec_float :=
  SFdiv 24 128
    (binary32 (total (deltas highRefreshRatePeriod frames)))
    (binary32 (toSize (Z.of_nat (length frames) - 1))).

(** [|d - averageDelta| > 2 * averageDelta] *)
Definition deviates (average : spec_float) (d : Z) : bool :=
  SFltb (SFmul 24 128 two average)
        (SFabs (SFsub 24 128 (binary32 d) average)).

(** [candidateRate = 1e9 / averageDelta] *)
Definition candidateRate (highRefreshRatePeriod : Z)
    (frames : list FrameTimeData) : spec_float :=
  SFdiv 24 128 nanosecondsPerSecond
    (averageDelta highRefreshRatePeriod frames).

(** [|candidateRate - lastReportedRate| > 1.0] *)
Definition exceedsMargin (candidate lastReported : spec_float) : bool :=
  SFltb one (SFabs (SFsub 24 128 candidate lastReported)).

End Claimed.

(** ** Concrete configurations and states *)

Module Scenario.

(** The configuration of the specification's scenario: a history of three
    samples, a frequency window of three samples, 250 ms and 1 s. *)
Definition HISTORY_SIZE : nat := 3.
Definition FREQUENT_LAYER_WINDOW_SIZE : nat := 3.
Definition MAX_FREQUENT_LAYER_PERIOD_NS : Z := 250000000.
Definition HISTORY_TIME : Z := 1000000000.

Definition period60Hz : Z := 16666667.

Definition fresh : LayerInfoV2 := LayerInfoV2_new period60Hz Heuristic.

(** Four frames at a steady 60 Hz. *)
Definition steadyCalls : list (Z * Z) :=
  [(0, 0); (16666667, 16666667); (33333334, 33333334);
   (50000001, 50000001)].

Definition steady : LayerInfoV2 := recordAll HISTORY_SIZE steadyCalls fresh.

(** Three frames, the second without a present time. *)
Definition sentinelCalls : list (Z * Z) :=
  [(16666667, 16666667); (0, 33333334); (50000001, 50000001)].

Definition withSentinel : LayerInfoV2 :=
  recordAll HISTORY_SIZE sentinelCalls fresh.

(** A present time ahead of the clock, then a frame without one. *)
Definition futureCalls : list (Z * Z) := [(100, 0); (0, 1)].

(** 60 Hz as a [float], and [steady] once that rate has been reported. *)
Definition rate60 : F32.t := S754_finite false 15728640 (-18).

Definition steadyReported : LayerInfoV2 :=
  set_mLastReportedRefreshRate rate60 steady.

(** [steady] with a previously reported rate of 60.5 Hz. *)
Definition rate60_5 : F32.t := S754_finite false 15859712 (-18).

Definition steadyNear : LayerInfoV2 :=
  set_mLastReportedRefreshRate rate60_5 steady.

(** A larger history capacity. *)
Definition LARGE_HISTORY_SIZE : nat := 90.

(** [steady] with previously reported rates of 61 Hz and of 62 Hz. *)
Definition rate61 : F32.t := S754_finite false 15990784 (-18).
Definition rate62 : F32.t := S754_finite false 16252928 (-18).

Definition steadyAtMargin : LayerInfoV2 :=
  set_mLastReportedRefreshRate rate61 steady.

Definition steadyAbove : LayerInfoV2 :=
  set_mLastReportedRefreshRate rate62 steady.

(** Four frames 20 ms apart, then a gap of one second: the last delta is
    between three and four times the average. *)
Definition burstCalls : list (Z * Z) :=
  [(20000000, 20000000); (40000000, 40000000); (60000000, 60000000);
   (80000000, 80000000); (1080000000, 1080000000)].

Definition burst : LayerInfoV2 :=
  recordAll LARGE_HISTORY_SIZE burstCalls fresh.

(** Three frames 20 ms apart, then a gap of one second: the last delta is
    between two and three times the average. *)
Definition unevenCalls : list (Z * Z) :=
  [(20000000, 20000000); (40000000, 40000000); (60000000, 60000000);
   (1060000000, 1060000000)].

Definition uneven : LayerInfoV2 :=
  recordAll LARGE_HISTORY_SIZE unevenCalls fresh.

Definition rateUneven : F32.t := S754_finite false 12098954 (-22).

(** Three frames 1 ms apart, closer than the high refresh rate period. *)
Definition fastCalls : list (Z * Z) :=
  [(1000000, 1000000); (2000000, 2000000); (3000000, 3000000)].

Definition fast : LayerInfoV2 := recordAll HISTORY_SIZE fastCalls fresh.

(** A layer with a negative period, one frame of which is presented 750 ms
    before its predecessor. *)
Definition backwardsCalls : list (Z * Z) :=
  [(2000000000, 2000000000); (3000000000, 3000000000);
   (4000000000, 4000000000); (3250000000, 3250000000)].

Definition backwards : LayerInfoV2 :=
  recordAll LARGE_HISTORY_SIZE backwardsCalls
    (LayerInfoV2_new (-1000000000) Heuristic).

(** A history of capacity one after one frame. *)
Definition single : LayerInfoV2 :=
  recordAll 1%nat [(16666667, 16666667)] fresh.

(** The first frame of a layer in the scenario's configuration. *)
Definition firstFrame : LayerInfoV2 :=
  setLastPresentTime HISTORY_SIZE 16666667 16666667 fresh.

(** A layer whose default vote is [Max]. *)
Definition freshMax : LayerInfoV2 := LayerInfoV2_new period60Hz Max.

End Scenario.

(** * Properties *)

(** ** Lists and the deque *)

Lemma lastn_all {A : Type} (k : nat) (d : list A) :
  (length d <= k)%nat -> lastn k d = d.
Proof.
  intros Hle. unfold lastn.
  replace (length d - k)%nat with 0%nat by lia. reflexivity.
Qed.

Lemma lastn_length {A : Type} (k : nat) (d : list A) :
  length (lastn k d) = Nat.min (length d) k.
Proof.
  unfold lastn. rewrite length_skipn. lia.
Qed.

Lemma skipn_succ_tl {A : Type} (n : nat) (d : list A) :
  skipn (S n) d = tl (skipn n d).
Proof.
  revert d. induction n as [|n IH]; intros [|x d]; simpl; try reflexivity.
  apply IH.
Qed.

(** Pushing onto the newest [k] elements and popping the front when that
    makes more than [k] is keeping the newest [k] of the longer history. *)
Lemma lastn_push_pop {A : Type} (k : nat) (d : list A) (x : A) :
  lastn k (d ++ [x]) =
  (if (k <? length (push_back (lastn k d) x))%nat
   then pop_front (push_back (lastn k d) x)
   else push_back (lastn k d) x).
Proof.
  unfold push_back, pop_front.
  rewrite length_app, lastn_length. simpl.
  destruct (Nat.ltb_spec k (Nat.min (length d) k + 1)) as [Hfull|Hroom].
  - unfold lastn. rewrite length_app. simpl.
    replace (length d + 1 - k)%nat with (S (length d - k)) by lia.
    rewrite skipn_succ_tl, skipn_app.
    replace (length d - k - length d)%nat with 0%nat by lia.
    reflexivity.
  - rewrite (lastn_all k d) by lia.
    apply lastn_all. rewrite length_app. simpl. lia.
Qed.

Lemma Sorted_skipn {A : Type} (R : A -> A -> Prop) (n : nat) (d : list A) :
  Sorted R d -> Sorted R (skipn n d).
Proof.
  revert d. induction n as [|n IH]; intros d Hd; simpl; [exact Hd|].
  destruct d as [|x d]; [constructor|].
  apply IH. inversion Hd; assumption.
Qed.

Lemma pairs_nil_inv {A : Type} (d : list A) :
  pairs d = [] -> (length d <= 1)%nat.
Proof.
  destruct d as [|x [|y d]]; simpl; intros H; try lia. discriminate.
Qed.

Lemma back_opt_app {A : Type} (d : list A) (x : A) :
  back_opt (d ++ [x]) = Some x.
Proof.
  induction d as [|y d IH]; simpl; [reflexivity|].
  destruct (d ++ [x]) eqn:E; [destruct d; discriminate|exact IH].
Qed.

(** ** [setLastPresentTime] *)

Section History.

Variable HISTORY_SIZE : nat.

Lemma setLastPresentTime_frames (p n : Z) (s : LayerInfoV2)
    (hist : list FrameTimeData) :
  mFrameTimes s = lastn HISTORY_SIZE hist ->
  mFrameTimes (setLastPresentTime HISTORY_SIZE p n s) =
  lastn HISTORY_SIZE (hist ++ [sampleOf (p, n)]).
Proof.
  intros Hs. rewrite lastn_push_pop, <- Hs. reflexivity.
Qed.

Lemma recordAll_frames (calls : list (Z * Z)) :
  forall (s : LayerInfoV2) (hist : list FrameTimeData),
    mFrameTimes s = lastn HISTORY_SIZE hist ->
    mFrameTimes (recordAll HISTORY_SIZE calls s) =
    lastn HISTORY_SIZE (hist ++ map sampleOf calls).
Proof.
  induction calls as [|[p n] calls IH]; intros s hist Hs; simpl.
  - rewrite app_nil_r. exact Hs.
  - rewrite (IH _ (hist ++ [sampleOf (p, n)])).
    + rewrite <- app_assoc. reflexivity.
    + apply setLastPresentTime_frames. exact Hs.
Qed.

Lemma recordAll_from_empty (calls : list (Z * Z)) (s0 : LayerInfoV2) :
  mFrameTimes s0 = [] ->
  mFrameTimes (recordAll HISTORY_SIZE calls s0)
  = lastn HISTORY_SIZE (map sampleOf calls).
Proof.
  intros H0. apply (recordAll_frames calls s0 []). rewrite H0. reflexivity.
Qed.

Lemma sampleOf_queueTime_le (c1 c2 : Z * Z) :
  callsInOrder c1 c2 -> queueTime (sampleOf c1) <= queueTime (sampleOf c2).
Proof.
  unfold callsInOrder, sampleOf. simpl. lia.
Qed.

Lemma queueTimes_of_calls_sorted (calls : list (Z * Z)) :
  Sorted callsInOrder calls ->
  Sorted Z.le (map queueTime (map sampleOf calls)).
Proof.
  induction 1 as [|c calls Hsorted IH Hhd]; simpl; constructor.
  - exact IH.
  - destruct Hhd as [|c' calls' Hcc']; simpl; constructor.
    apply sampleOf_queueTime_le. exact Hcc'.
Qed.

(** C3.  Starting from an empty history, after the calls [calls] the
    history holds [min (length calls) HISTORY_SIZE] samples, namely the
    samples of the newest calls in call order; and a call on a full
    history removes exactly the oldest element of the history extended by
    the new sample, keeping the order of the others. *)
Theorem history_bounded_fifo (calls : list (Z * Z)) (s0 : LayerInfoV2) :
  mFrameTimes s0 = [] ->
  length (mFrameTimes (recordAll HISTORY_SIZE calls s0))
    = Nat.min (length calls) HISTORY_SIZE
  /\ mFrameTimes (recordAll HISTORY_SIZE calls s0)
    = lastn HISTORY_SIZE (map sampleOf calls)
  /\ forall p n : Z,
      length (mFrameTimes (recordAll HISTORY_SIZE calls s0)) = HISTORY_SIZE ->
      exists oldest : FrameTimeData,
        mFrameTimes (recordAll HISTORY_SIZE calls s0) ++ [sampleOf (p, n)]
        = oldest
          :: mFrameTimes
               (setLastPresentTime HISTORY_SIZE p n
                  (recordAll HISTORY_SIZE calls s0)).
Proof.
  intros H0. pose proof (recordAll_from_empty calls s0 H0) as Hfr.
  split; [|split].
  - rewrite Hfr, lastn_length, length_map. reflexivity.
  - exact Hfr.
  - intros p n Hfull.
    unfold setLastPresentTime, push_back, pop_front, sampleOf.
    simpl. rewrite length_app, Hfull. simpl.
    replace (HISTORY_SIZE <? HISTORY_SIZE + 1)%nat with true
      by (symmetry; apply Nat.ltb_lt; lia).
    destruct (mFrameTimes (recordAll HISTORY_SIZE calls s0)) as [|x rest];
      simpl; eexists; reflexivity.
Qed.

(** C2, amended.  Starting from an empty history, when in a run of calls
    the [now] values never go back and no call's present time is ahead of
    both the present time and the [now] of the next call, the queue times
    stored in the history, oldest first, never go back. *)
Theorem queueTime_monotonic (calls : list (Z * Z)) (s0 : LayerInfoV2) :
  mFrameTimes s0 = [] ->
  Sorted callsInOrder calls ->
  Sorted Z.le (queueTimes (recordAll HISTORY_SIZE calls s0)).
Proof.
  intros H0 Hcalls. unfold queueTimes.
  rewrite (recordAll_from_empty calls s0 H0).
  unfold lastn. rewrite <- skipn_map.
  apply Sorted_skipn, queueTimes_of_calls_sorted, Hcalls.
Qed.

End History.

(** ** The two loops of [calculateRefreshRateIfPossible] *)

Lemma hasSentinelb_spec (p : FrameTimeData * FrameTimeData) :
  hasSentinelb p = true <-> hasSentinel p.
Proof.
  unfold hasSentinelb, hasSentinel.
  rewrite orb_true_iff, !Z.eqb_eq. reflexivity.
Qed.

Lemma existsb_hasSentinelb_false (d : list FrameTimeData) :
  (forall p, In p (pairs d) -> ~ hasSentinel p) ->
  existsb hasSentinelb (pairs d) = false.
Proof.
  intros Hno. destruct (existsb hasSentinelb (pairs d)) eqn:E; [|reflexivity].
  apply existsb_exists in E. destruct E as [p [Hin Hp]].
  apply hasSentinelb_spec in Hp. destruct (Hno p Hin Hp).
Qed.

Lemma existsb_hasSentinelb_true (d : list FrameTimeData) :
  (exists p, In p (pairs d) /\ hasSentinel p) ->
  existsb hasSentinelb (pairs d) = true.
Proof.
  intros [p [Hin Hp]]. apply existsb_exists. exists p.
  split; [exact Hin|]. apply hasSentinelb_spec. exact Hp.
Qed.

Lemma existsb_false_In {A : Type} (f : A -> bool) (l : list A) :
  existsb f l = false -> forall x, In x l -> f x = false.
Proof.
  intros E x Hin. destruct (f x) eqn:Hfx; [|reflexivity].
  rewrite <- E. symmetry. apply existsb_exists. exists x. auto.
Qed.

Lemma no_sentinel_of_existsb (d : list FrameTimeData) :
  existsb hasSentinelb (pairs d) = false ->
  forall p, In p (pairs d) -> ~ hasSentinel p.
Proof.
  intros E p Hin Hp. apply hasSentinelb_spec in Hp.
  rewrite (existsb_false_In _ _ E p Hin) in Hp. discriminate.
Qed.

Section Loops.

Variable period : Z.

Lemma sumPresentTimeDeltas_spec (it : list FrameTimeData) :
  forall total : Z,
    it <> [] ->
    sumPresentTimeDeltas period it total =
    if existsb hasSentinelb (pairs it) then Ok None
    else Ok (Some (fold_left Int64.add
                     (map (pairDelta period) (pairs it)) total)).
Proof.
  induction it as [|cur rest IH]; intros total Hne; [congruence|].
  destruct rest as [|next rest']; [reflexivity|].
  change (sumPresentTimeDeltas period (cur :: next :: rest') total)
    with (if hasSentinelb (cur, next) then Ok None
          else sumPresentTimeDeltas period (next :: rest')
                 (Int64.add total (pairDelta period (cur, next)))).
  change (pairs (cur :: next :: rest'))
    with ((cur, next) :: pairs (next :: rest')).
  cbn [existsb map fold_left].
  destruct (hasSentinelb (cur, next)); [reflexivity|].
  rewrite IH by discriminate. reflexivity.
Qed.

Lemma framesEvenlyDistributed_spec (avg : F32.t) (it : list FrameTimeData) :
  it <> [] ->
  framesEvenlyDistributed period avg it =
  Ok (negb (existsb (deviates avg) (map (pairDelta period) (pairs it)))).
Proof.
  induction it as [|cur rest IH]; intros Hne; [congruence|].
  destruct rest as [|next rest']; [reflexivity|].
  change (framesEvenlyDistributed period avg (cur :: next :: rest'))
    with (if deviates avg (pairDelta period (cur, next)) then Ok false
          else framesEvenlyDistributed period avg (next :: rest')).
  change (pairs (cur :: next :: rest'))
    with ((cur, next) :: pairs (next :: rest')).
  cbn [existsb map].
  destruct (deviates avg (pairDelta period (cur, next))); [reflexivity|].
  rewrite IH by discriminate. reflexivity.
Qed.

End Loops.


(** ** [hasEnoughDataForHeuristic] and [calculateRefreshRateIfPossible] *)

Lemma Int64_sub_diag (z : Z) : Int64.sub z z = 0.
Proof.
  unfold Int64.sub. rewrite Z.sub_diag. reflexivity.
Qed.

Lemma LayerVoteType_eqb_eq (a b : LayerVoteType) :
  LayerVoteType_eqb a b = true <-> a = b.
Proof.
  destruct a, b; simpl; split; intros H;
    try reflexivity; try discriminate.
  - apply Nat.eqb_eq in H. congruence.
  - injection H as ->. apply Nat.eqb_refl.
Qed.

Lemma report_sameButReportedRate (r : F32.t) (s : LayerInfoV2) :
  sameButReportedRate s (report r s).
Proof.
  unfold sameButReportedRate, report.
  destruct (exceedsMargin r (mLastReportedRefreshRate s));
    [reflexivity | destruct s; reflexivity].
Qed.

Section Estimator.

Variable HISTORY_SIZE : nat.
Variable HISTORY_TIME : Z.

Lemma hasEnoughDataForHeuristic_frames (s1 s2 : LayerInfoV2) :
  mFrameTimes s1 = mFrameTimes s2 ->
  hasEnoughDataForHeuristic HISTORY_SIZE HISTORY_TIME s1 =
  hasEnoughDataForHeuristic HISTORY_SIZE HISTORY_TIME s2.
Proof.
  intros E. unfold hasEnoughDataForHeuristic. rewrite E. reflexivity.
Qed.

(** With a history capacity of at least one, the check does not succeed on
    an empty history: it reads [back()] there. *)
Lemma hasEnoughDataForHeuristic_nonempty (s : LayerInfoV2) :
  (0 < HISTORY_SIZE)%nat ->
  hasEnoughDataForHeuristic HISTORY_SIZE HISTORY_TIME s = Ok true ->
  mFrameTimes s <> [].
Proof.
  intros Hpos Henough Hempty. unfold hasEnoughDataForHeuristic in Henough.
  rewrite Hempty in Henough. simpl in Henough.
  destruct HISTORY_SIZE; [lia | discriminate].
Qed.

Lemma calculateRefreshRateIfPossible_spec (s : LayerInfoV2) :
  mFrameTimes s <> [] ->
  hasEnoughDataForHeuristic HISTORY_SIZE HISTORY_TIME s = Ok true ->
  calculateRefreshRateIfPossible HISTORY_SIZE HISTORY_TIME s =
  if existsb hasSentinelb (pairs (mFrameTimes s)) then Ok (None, s)
  else if existsb (deviates (averageDelta s)) (deltas s) then Ok (None, s)
  else Ok (Some (mLastReportedRefreshRate (report (candidateRate s) s)),
           report (candidateRate s) s).
Proof.
  intros Hne Henough. unfold calculateRefreshRateIfPossible.
  rewrite Henough. cbn [bind negb].
  rewrite sumPresentTimeDeltas_spec by exact Hne.
  destruct (existsb hasSentinelb (pairs (mFrameTimes s))); [reflexivity|].
  cbn [bind]. rewrite framesEvenlyDistributed_spec by exact Hne.
  cbn [bind]. unfold candidateRate, averageDelta, deltas, sum64, report.
  destruct (existsb _ _); reflexivity.
Qed.

Lemma calculateRefreshRateIfPossible_none (s s' : LayerInfoV2) :
  calculateRefreshRateIfPossible HISTORY_SIZE HISTORY_TIME s = Ok (None, s') ->
  s' = s.
Proof.
  unfold calculateRefreshRateIfPossible.
  destruct (hasEnoughDataForHeuristic _ _ s) as [[|]|]; cbn [bind negb];
    [| intros H; congruence | discriminate].
  destruct (sumPresentTimeDeltas _ _ _) as [[total|]|]; cbn [bind];
    [| intros H; congruence | discriminate].
  destruct (framesEvenlyDistributed _ _ _) as [[|]|]; cbn [bind negb];
    [discriminate | intros H; congruence | discriminate].
Qed.

Lemma calculateRefreshRateIfPossible_some (s s' : LayerInfoV2) (v : F32.t) :
  calculateRefreshRateIfPossible HISTORY_SIZE HISTORY_TIME s
    = Ok (Some v, s') ->
  mFrameTimes s <> []
  /\ hasEnoughDataForHeuristic HISTORY_SIZE HISTORY_TIME s = Ok true.
Proof.
  unfold calculateRefreshRateIfPossible.
  destruct (hasEnoughDataForHeuristic _ _ s) as [[|]|]; cbn [bind negb];
    [| discriminate | discriminate].
  intros H. split; [|reflexivity]. intros Hempty.
  rewrite Hempty in H. discriminate.
Qed.

(** What a successful call returns and leaves behind. *)
Lemma calculateRefreshRateIfPossible_some_report
    (s s' : LayerInfoV2) (v : F32.t) :
  calculateRefreshRateIfPossible HISTORY_SIZE HISTORY_TIME s
    = Ok (Some v, s') ->
  existsb hasSentinelb (pairs (mFrameTimes s)) = false
  /\ existsb (deviates (averageDelta s)) (deltas s) = false
  /\ s' = report (candidateRate s) s
  /\ v = mLastReportedRefreshRate s'.
Proof.
  intros H.
  destruct (calculateRefreshRateIfPossible_some s s' v H) as [Hne Henough].
  rewrite (calculateRefreshRateIfPossible_spec s Hne Henough) in H.
  destruct (existsb hasSentinelb _); [discriminate|].
  destruct (existsb (deviates _) _); [discriminate|].
  injection H as Hv Hs. subst s'. auto.
Qed.

End Estimator.

(** ** The code's quantities are the claimed ones *)

Lemma Claimed_toInt64_wrap (z : Z) : Claimed.toInt64 z = Int64.wrap z.
Proof.
  unfold Claimed.toInt64, Int64.wrap. cbv zeta.
  destruct (Z.ltb_spec (z mod 2 ^ 64) (2 ^ 63)) as [Hlow|Hhigh];
    Z.div_mod_to_equations; lia.
Qed.

Lemma Int64_wrap_add_l (a b : Z) :
  Int64.wrap (Int64.wrap a + b) = Int64.wrap (a + b).
Proof.
  unfold Int64.wrap.
  replace ((a + 2 ^ 63) mod 2 ^ 64 - 2 ^ 63 + b + 2 ^ 63)
    with ((a + 2 ^ 63) mod 2 ^ 64 + b) by lia.
  rewrite Zplus_mod_idemp_l.
  replace (a + 2 ^ 63 + b) with (a + b + 2 ^ 63) by lia.
  reflexivity.
Qed.

Lemma fold_left_Int64_add (ds : list Z) :
  forall a : Z,
    fold_left Int64.add ds (Int64.wrap a)
    = Int64.wrap (a + fold_right Z.add 0 ds).
Proof.
  induction ds as [|d ds IH]; intros a; cbn [fold_left fold_right].
  - rewrite Z.add_0_r. reflexivity.
  - unfold Int64.add at 2. rewrite Int64_wrap_add_l, IH.
    f_equal. lia.
Qed.

Lemma Claimed_total (ds : list Z) : sum64 ds = Claimed.total ds.
Proof.
  unfold sum64, Claimed.total. rewrite Claimed_toInt64_wrap.
  change 0 with (Int64.wrap 0) at 1.
  rewrite fold_left_Int64_add. reflexivity.
Qed.

Lemma Claimed_deltas (s : LayerInfoV2) :
  deltas s = Claimed.deltas (mHighRefreshRatePeriod s) (mFrameTimes s).
Proof.
  unfold deltas, Claimed.deltas. apply map_ext. intros [cur next].
  unfold pairDelta, presentTimeDelta, Claimed.delta, Int64.sub.
  rewrite Claimed_toInt64_wrap. reflexivity.
Qed.

Lemma Claimed_averageDelta (s : LayerInfoV2) :
  averageDelta s
  = Claimed.averageDelta (mHighRefreshRatePeriod s) (mFrameTimes s).
Proof.
  unfold averageDelta, Claimed.averageDelta.
  rewrite Claimed_total, Claimed_deltas. reflexivity.
Qed.

Lemma Claimed_candidateRate (s : LayerInfoV2) :
  candidateRate s
  = Claimed.candidateRate (mHighRefreshRatePeriod s) (mFrameTimes s).
Proof.
  unfold candidateRate, Claimed.candidateRate.
  rewrite Claimed_averageDelta. reflexivity.
Qed.

Lemma Claimed_deviates (average : F32.t) (d : Z) :
  deviates average d = Claimed.deviates average d.
Proof.
  reflexivity.
Qed.

Lemma Claimed_exceedsMargin (candidate lastReported : F32.t) :
  exceedsMargin candidate lastReported
  = Claimed.exceedsMargin candidate lastReported.
Proof.
  reflexivity.
Qed.

(** ** The heuristic *)

Section Heuristic.

Variable HISTORY_SIZE : nat.
Variable HISTORY_TIME : Z.

(** C4.  When [calculateRefreshRateIfPossible] gets past its three checks
    and computes the candidate rate [1e9 / averageDelta], so that it
    returns a value [v] and the state [s'], then [v] is the reported rate
    of [s'], and the reported rate was assigned the candidate exactly when
    [|candidate - reported| > 1.0] in binary32: in that case [s'] is [s]
    with the candidate stored, otherwise [s'] is [s]. *)
Theorem hysteresis_update (s s' : LayerInfoV2) (v : F32.t) :
  calculateRefreshRateIfPossible HISTORY_SIZE HISTORY_TIME s
    = Ok (Some v, s') ->
  v = mLastReportedRefreshRate s'
  /\ (Claimed.exceedsMargin
        (Claimed.candidateRate (mHighRefreshRatePeriod s) (mFrameTimes s))
        (mLastReportedRefreshRate s) = true ->
      s' = set_mLastReportedRefreshRate
             (Claimed.candidateRate (mHighRefreshRatePeriod s)
                (mFrameTimes s)) s)
  /\ (Claimed.exceedsMargin
        (Claimed.candidateRate (mHighRefreshRatePeriod s) (mFrameTimes s))
        (mLastReportedRefreshRate s) = false ->
      s' = s).
Proof.
  intros H.
  destruct (calculateRefreshRateIfPossible_some_report _ _ s s' v H)
    as (_ & _ & Hs' & Hv).
  split; [exact Hv|].
  unfold report in Hs'.
  rewrite Claimed_exceedsMargin, Claimed_candidateRate in Hs'.
  split; intros Hm; rewrite Hm in Hs'; exact Hs'.
Qed.

(** C5.  After a call that returned a value [v1] and left the state [s1], a
    second call on a state with the same history (and period) and the same
    reported rate, whose recomputed candidate is within [MARGIN] of that
    reported rate, returns [v1] again and changes nothing. *)
Theorem hysteresis_idempotent (s s1 s2 : LayerInfoV2) (v1 : F32.t) :
  calculateRefreshRateIfPossible HISTORY_SIZE HISTORY_TIME s
    = Ok (Some v1, s1) ->
  mFrameTimes s2 = mFrameTimes s1 ->
  mHighRefreshRatePeriod s2 = mHighRefreshRatePeriod s1 ->
  mLastReportedRefreshRate s2 = mLastReportedRefreshRate s1 ->
  exceedsMargin (candidateRate s2) (mLastReportedRefreshRate s2) = false ->
  calculateRefreshRateIfPossible HISTORY_SIZE HISTORY_TIME s2
    = Ok (Some v1, s2).
Proof.
  intros H Hframes Hperiod Hrate Hwithin.
  destruct (calculateRefreshRateIfPossible_some _ _ s s1 v1 H)
    as [Hne Henough].
  destruct (calculateRefreshRateIfPossible_some_report _ _ s s1 v1 H)
    as (Hsent & Hdev & Hs1 & Hv1).
  pose proof (report_sameButReportedRate (candidateRate s) s) as Hsame.
  rewrite <- Hs1 in Hsame. unfold sameButReportedRate in Hsame.
  assert (Hf : mFrameTimes s2 = mFrameTimes s)
    by (rewrite Hframes, Hsame; reflexivity).
  assert (Hp : mHighRefreshRatePeriod s2 = mHighRefreshRatePeriod s)
    by (rewrite Hperiod, Hsame; reflexivity).
  assert (Hd : deltas s2 = deltas s)
    by (unfold deltas; rewrite Hf, Hp; reflexivity).
  assert (Ha : averageDelta s2 = averageDelta s)
    by (unfold averageDelta; rewrite Hd, Hf; reflexivity).
  rewrite calculateRefreshRateIfPossible_spec.
  - rewrite Hf, Hsent, Ha, Hd, Hdev.
    unfold report. rewrite Hwithin, Hrate, <- Hv1. reflexivity.
  - rewrite Hf. exact Hne.
  - rewrite (hasEnoughDataForHeuristic_frames _ _ s2 s Hf). exact Henough.
Qed.

(** C6.  With a history capacity of at least one, on a history that passes
    [hasEnoughDataForHeuristic] and has no sentinel present time in any
    adjacent pair, let [d_i = max (presentTime_{i+1} - presentTime_i,
    mHighRefreshRatePeriod)] and let [averageDelta] be the sum of the [d_i]
    divided by the sample count minus one (integers in [nsecs_t] and
    [size_t], the quotient and the test in binary32).  If some [d_i] has
    [|d_i - averageDelta| > 2 * averageDelta] the call returns no value and
    leaves the state alone; if none has, the call returns a value: the
    reported rate after the hysteresis step on [1e9 / averageDelta]. *)
Theorem burst_rejection (s : LayerInfoV2) :
  (0 < HISTORY_SIZE)%nat ->
  hasEnoughDataForHeuristic HISTORY_SIZE HISTORY_TIME s = Ok true ->
  (forall p, In p (pairs (mFrameTimes s)) -> ~ hasSentinel p) ->
  ((exists d,
      In d (Claimed.deltas (mHighRefreshRatePeriod s) (mFrameTimes s))
      /\ Claimed.deviates
           (Claimed.averageDelta (mHighRefreshRatePeriod s) (mFrameTimes s))
           d = true) ->
   calculateRefreshRateIfPossible HISTORY_SIZE HISTORY_TIME s = Ok (None, s))
  /\ ((forall d,
         In d (Claimed.deltas (mHighRefreshRatePeriod s) (mFrameTimes s)) ->
         Claimed.deviates
           (Claimed.averageDelta (mHighRefreshRatePeriod s) (mFrameTimes s))
           d = false) ->
      calculateRefreshRateIfPossible HISTORY_SIZE HISTORY_TIME s
      = (if Claimed.exceedsMargin
              (Claimed.candidateRate (mHighRefreshRatePeriod s)
                 (mFrameTimes s))
              (mLastReportedRefreshRate s)
         then Ok (Some (Claimed.candidateRate (mHighRefreshRatePeriod s)
                          (mFrameTimes s)),
                  set_mLastReportedRefreshRate
                    (Claimed.candidateRate (mHighRefreshRatePeriod s)
                       (mFrameTimes s)) s)
         else Ok (Some (mLastReportedRefreshRate s), s))).
Proof.
  intros Hpos Henough Hsent.
  pose proof (hasEnoughDataForHeuristic_nonempty _ _ s Hpos Henough) as Hne.
  rewrite (calculateRefreshRateIfPossible_spec _ _ s Hne Henough).
  rewrite (existsb_hasSentinelb_false _ Hsent).
  rewrite Claimed_averageDelta, Claimed_deltas, Claimed_candidateRate.
  split.
  - intros [d [Hin Hd]].
    replace (existsb _ _) with true; [reflexivity|].
    symmetry. apply existsb_exists. exists d.
    rewrite Claimed_deviates. auto.
  - intros Hall.
    replace (existsb _ _) with false.
    + unfold report. rewrite Claimed_exceedsMargin.
      destruct (Claimed.exceedsMargin _ _); reflexivity.
    + symmetry. destruct (existsb _ _) eqn:E; [|reflexivity].
      apply existsb_exists in E. destruct E as [d [Hin Hd]].
      rewrite Claimed_deviates, (Hall d Hin) in Hd. discriminate.
Qed.

(** C7.  On a history that passes [hasEnoughDataForHeuristic], if a sample
    of some adjacent pair has the sentinel present time 0, the call returns
    no value. *)
Theorem sentinel_rejection (s : LayerInfoV2) :
  hasEnoughDataForHeuristic HISTORY_SIZE HISTORY_TIME s = Ok true ->
  (exists p, In p (pairs (mFrameTimes s)) /\ hasSentinel p) ->
  calculateRefreshRateIfPossible HISTORY_SIZE HISTORY_TIME s = Ok (None, s).
Proof.
  intros Henough Hsent.
  assert (Hne : mFrameTimes s <> []).
  { destruct Hsent as [p [Hin _]]. intros E. rewrite E in Hin. exact Hin. }
  rewrite (calculateRefreshRateIfPossible_spec _ _ s Hne Henough).
  rewrite (existsb_hasSentinelb_true _ Hsent). reflexivity.
Qed.

(** C10.  With [HISTORY_SIZE >= 2] and [HISTORY_TIME > 0], a non-empty
    history (whose size is a [size_t]) on which [hasEnoughDataForHeuristic]
    returns true has at least two samples: the divisor [size() - 1] is at
    least 1, there is at least one adjacent pair, and the call performs no
    out-of-bounds access. *)
Theorem enough_data_two_samples (s : LayerInfoV2) :
  (2 <= HISTORY_SIZE)%nat ->
  0 < HISTORY_TIME ->
  SizeT.in_range (Z.of_nat (length (mFrameTimes s))) ->
  mFrameTimes s <> [] ->
  hasEnoughDataForHeuristic HISTORY_SIZE HISTORY_TIME s = Ok true ->
  (2 <= length (mFrameTimes s))%nat
  /\ 1 <= SizeT.sub (Z.of_nat (length (mFrameTimes s))) 1
  /\ pairs (mFrameTimes s) <> []
  /\ calculateRefreshRateIfPossible HISTORY_SIZE HISTORY_TIME s
     <> OutOfBounds.
Proof.
  intros Hcap Htime Hsize Hne Henough.
  assert (Hlen : (2 <= length (mFrameTimes s))%nat).
  { destruct (mFrameTimes s) as [|x [|y rest]] eqn:E;
      [congruence | | simpl; lia].
    exfalso. unfold hasEnoughDataForHeuristic in Henough.
    rewrite E in Henough. cbn [length] in Henough.
    replace (1 <? HISTORY_SIZE)%nat with true in Henough
      by (symmetry; apply Nat.ltb_lt; lia).
    cbn in Henough. rewrite Int64_sub_diag in Henough.
    replace (0 <? HISTORY_TIME) with true in Henough
      by (symmetry; apply Z.ltb_lt; lia).
    discriminate. }
  split; [exact Hlen|]. split; [|split].
  - unfold SizeT.in_range, SizeT.max_unsigned in Hsize.
    unfold SizeT.sub, SizeT.wrap. rewrite Z.mod_small; lia.
  - intros E. apply pairs_nil_inv in E. lia.
  - rewrite (calculateRefreshRateIfPossible_spec _ _ s Hne Henough).
    destruct (existsb hasSentinelb _); [discriminate|].
    destruct (existsb (deviates _) _); discriminate.
Qed.

End Heuristic.

(** ** [getRefreshRate] *)

Section Vote.

Variable HISTORY_SIZE : nat.
Variable FREQUENT_LAYER_WINDOW_SIZE : nat.
Variable MAX_FREQUENT_LAYER_PERIOD_NS : Z.
Variable HISTORY_TIME : Z.

(** C8.  A call of [getRefreshRate] that returns leaves the history, the
    stored vote and every other field but [mLastReportedRefreshRate] as
    they were; the state changes at all only when
    [calculateRefreshRateIfPossible] returned a value; and whenever that
    function returns no value it leaves the whole state as it was. *)
Theorem getRefreshRate_frame (now : Z) (s s' : LayerInfoV2)
    (v : LayerVoteType * F32.t) :
  getRefreshRate HISTORY_SIZE FREQUENT_LAYER_WINDOW_SIZE
    MAX_FREQUENT_LAYER_PERIOD_NS HISTORY_TIME now s = Ok (v, s') ->
  mFrameTimes s' = mFrameTimes s
  /\ mLayerVote s' = mLayerVote s
  /\ sameButReportedRate s s'
  /\ (s' <> s ->
      exists r : F32.t,
        calculateRefreshRateIfPossible HISTORY_SIZE HISTORY_TIME s
        = Ok (Some r, s'))
  /\ (forall st : LayerInfoV2,
      calculateRefreshRateIfPossible HISTORY_SIZE HISTORY_TIME s
      = Ok (None, st) -> st = s /\ s' = s).
Proof.
  intros H.
  assert (Hsame_refl : sameButReportedRate s s)
    by (unfold sameButReportedRate; destruct s; reflexivity).
  assert (Hcases :
    s' = s
    /\ (forall st, calculateRefreshRateIfPossible HISTORY_SIZE HISTORY_TIME s
                   = Ok (None, st) -> st = s)
    \/ exists r, calculateRefreshRateIfPossible HISTORY_SIZE HISTORY_TIME s
                 = Ok (Some r, s')).
  { unfold getRefreshRate in H.
    pose proof (calculateRefreshRateIfPossible_none
                  HISTORY_SIZE HISTORY_TIME s) as Hnone.
    destruct (negb (LayerVoteType_eqb (type (mLayerVote s)) Heuristic)).
    - injection H as _ Hs. left. split; [congruence|].
      intros st Hst. apply Hnone. exact Hst.
    - destruct (isFrequent _ _ now s) as [[|]|]; cbn [bind negb] in H;
        [| injection H as _ Hs; left; split;
           [congruence | intros st Hst; apply Hnone; exact Hst]
         | discriminate].
      destruct (calculateRefreshRateIfPossible _ _ s) as [[[r|] st0]|];
        cbn [bind] in H; [| | discriminate].
      + injection H as _ Hs. subst st0. right. exists r. reflexivity.
      + injection H as _ Hs. subst st0. left.
        pose proof (Hnone s' eq_refl) as E. split; [exact E|].
        intros st Hst. injection Hst as <-. exact E. }
  destruct Hcases as [[Hs Hnone]|[r Hr]].
  - subst s'. repeat split; auto.
    intros Hneq. contradiction.
  - destruct (calculateRefreshRateIfPossible_some_report _ _ s s' r Hr)
      as (_ & _ & Hs' & _).
    pose proof (report_sameButReportedRate (candidateRate s) s) as Hsame.
    rewrite <- Hs' in Hsame.
    split; [rewrite Hsame; reflexivity|].
    split; [rewrite Hsame; reflexivity|].
    split; [exact Hsame|].
    split; [intros _; exists r; exact Hr|].
    intros st Hst. rewrite Hr in Hst. discriminate.
Qed.

(** C9, the behaviour of the code.  On a freshly constructed estimator
    whose default vote is [Heuristic], whatever the constants,
    [getRefreshRate] reads the empty history out of bounds: through
    [back()] in [hasEnoughDataForHeuristic] when [HISTORY_SIZE] is positive,
    and through an iterator otherwise. *)
Theorem getRefreshRate_fresh_out_of_bounds (period now : Z) :
  getRefreshRate HISTORY_SIZE FREQUENT_LAYER_WINDOW_SIZE
    MAX_FREQUENT_LAYER_PERIOD_NS HISTORY_TIME now
    (LayerInfoV2_new period Heuristic) = OutOfBounds.
Proof.
  unfold getRefreshRate, isFrequent, calculateRefreshRateIfPossible,
    hasEnoughDataForHeuristic.
  cbn [LayerInfoV2_new mLayerVote type mFrameTimes LayerVoteType_eqb negb
       length].
  destruct FREQUENT_LAYER_WINDOW_SIZE as [|w]; [reflexivity|].
  destruct HISTORY_SIZE as [|h]; reflexivity.
Qed.

(** The sibling query [isRecentlyActive] guards the same access: on an
    empty history it answers without reading [back()]. *)
Lemma isRecentlyActive_empty (threshold : Z -> Z) (now : Z) (s : LayerInfoV2) :
  mFrameTimes s = [] ->
  isRecentlyActive threshold now s = Ok false.
Proof.
  intros E. unfold isRecentlyActive. rewrite E. reflexivity.
Qed.

End Vote.

(** * Further properties of the history *)

Lemma lastn_app_newest {A : Type} (k : nat) (a b : list A) :
  (k <= length b)%nat -> lastn k (a ++ b) = lastn k b.
Proof.
  intros Hk. unfold lastn. rewrite length_app, skipn_app.
  rewrite skipn_all2 by lia.
  replace (length a + length b - k - length a)%nat
    with (length b - k)%nat by lia.
  reflexivity.
Qed.

Lemma nth_error_skipn_hd {A : Type} (n : nat) (d : list A) :
  nth_error d n = hd_error (skipn n d).
Proof.
  revert d. induction n as [|n IH]; intros [|x d]; simpl; try reflexivity.
  apply IH.
Qed.

Lemma Forall_tl {A : Type} (P : A -> Prop) (d : list A) :
  Forall P d -> Forall P (tl d).
Proof.
  intros H. destruct H; simpl; [constructor | assumption].
Qed.

Lemma back_opt_tl_push {A : Type} (d : list A) (x : A) :
  d <> [] -> back_opt (tl (d ++ [x])) = Some x.
Proof.
  destruct d as [|y d]; [congruence|]. intros _. simpl.
  apply back_opt_app.
Qed.

Lemma pairs_In {A : Type} (d : list A) (p : A * A) :
  In p (pairs d) -> In (fst p) d /\ In (snd p) d.
Proof.
  induction d as [|x rest IH]; [intros []|].
  destruct rest as [|y rest']; [intros []|].
  change (pairs (x :: y :: rest')) with ((x, y) :: pairs (y :: rest')).
  intros [<-|Hin].
  - simpl. auto.
  - destruct (IH Hin) as [H1 H2]. split; right; assumption.
Qed.

Lemma Int64_wrap_small (z : Z) :
  Int64.min_signed <= z <= Int64.max_signed -> Int64.wrap z = z.
Proof.
  unfold Int64.min_signed, Int64.max_signed, Int64.wrap. intros Hz.
  rewrite Z.mod_small; lia.
Qed.

Section HistoryMore.

Variable HISTORY_SIZE : nat.

Lemma setLastPresentTime_frames_eq (p n : Z) (s : LayerInfoV2) :
  mFrameTimes (setLastPresentTime HISTORY_SIZE p n s) =
  if (HISTORY_SIZE <? length (mFrameTimes s ++ [sampleOf (p, n)]))%nat
  then tl (mFrameTimes s ++ [sampleOf (p, n)])
  else mFrameTimes s ++ [sampleOf (p, n)].
Proof.
  reflexivity.
Qed.

Lemma setLastPresentTime_Forall (P : FrameTimeData -> Prop) (p n : Z)
    (s : LayerInfoV2) :
  Forall P (mFrameTimes s) ->
  P (sampleOf (p, n)) ->
  Forall P (mFrameTimes (setLastPresentTime HISTORY_SIZE p n s)).
Proof.
  intros Hs Hx. rewrite setLastPresentTime_frames_eq.
  assert (Hall : Forall P (mFrameTimes s ++ [sampleOf (p, n)])).
  { apply Forall_app. split; [exact Hs|].
    constructor; [exact Hx | constructor]. }
  destruct (_ <? _)%nat; [apply Forall_tl|]; exact Hall.
Qed.

Lemma recordAll_Forall (P : FrameTimeData -> Prop) (calls : list (Z * Z)) :
  Forall (fun c => P (sampleOf c)) calls ->
  forall s : LayerInfoV2,
    Forall P (mFrameTimes s) ->
    Forall P (mFrameTimes (recordAll HISTORY_SIZE calls s)).
Proof.
  induction 1 as [|[p n] calls Hc Hcalls IH]; intros s Hs; [exact Hs|].
  simpl. apply IH. apply setLastPresentTime_Forall; assumption.
Qed.

Lemma setLastPresentTime_back_opt (p n : Z) (s : LayerInfoV2) :
  (0 < HISTORY_SIZE)%nat ->
  back_opt (mFrameTimes (setLastPresentTime HISTORY_SIZE p n s))
  = Some (sampleOf (p, n)).
Proof.
  intros Hpos. rewrite setLastPresentTime_frames_eq.
  destruct (Nat.ltb_spec HISTORY_SIZE
              (length (mFrameTimes s ++ [sampleOf (p, n)]))) as [Hfull|_].
  - apply back_opt_tl_push. intros E. rewrite E in Hfull. simpl in Hfull. lia.
  - apply back_opt_app.
Qed.

Lemma recordAll_snoc (calls : list (Z * Z)) (c : Z * Z) (s : LayerInfoV2) :
  recordAll HISTORY_SIZE (calls ++ [c]) s
  = setLastPresentTime HISTORY_SIZE (fst c) (snd c)
      (recordAll HISTORY_SIZE calls s).
Proof.
  unfold recordAll. rewrite fold_left_app. reflexivity.
Qed.

Lemma recordAll_length_le (calls : list (Z * Z)) (s : LayerInfoV2) :
  (length (mFrameTimes s) <= HISTORY_SIZE)%nat ->
  mFrameTimes (recordAll HISTORY_SIZE calls s)
  = lastn HISTORY_SIZE (mFrameTimes s ++ map sampleOf calls).
Proof.
  intros Hle. apply recordAll_frames. symmetry. apply lastn_all. exact Hle.
Qed.

Lemma recordAll_mLayerVote (calls : list (Z * Z)) :
  forall s : LayerInfoV2,
    mLayerVote (recordAll HISTORY_SIZE calls s) = mLayerVote s.
Proof.
  induction calls as [|c calls IH]; intros s; [reflexivity|].
  simpl. rewrite IH. reflexivity.
Qed.

(** X1.  The samples of the history stay well formed: if every stored
    sample has [0 <= presetTime <= queueTime], so has every sample after
    any run of [setLastPresentTime] calls, whatever present times and
    clock values are passed. *)
Theorem recorded_samples_wellformed (calls : list (Z * Z)) (s : LayerInfoV2) :
  Forall sampleWellFormed (mFrameTimes s) ->
  Forall sampleWellFormed (mFrameTimes (recordAll HISTORY_SIZE calls s)).
Proof.
  apply recordAll_Forall. apply Forall_forall. intros [p n] _.
  unfold sampleWellFormed, sampleOf. simpl. lia.
Qed.

(** X2.  With a capacity of at least one, after any non-empty run of calls
    [back()] is the sample of the last call, and [mLastUpdatedTime] is its
    queue time, which is neither negative nor before the call's [now]. *)
Theorem newest_sample_is_last_call (calls : list (Z * Z)) (c : Z * Z)
    (s : LayerInfoV2) :
  (0 < HISTORY_SIZE)%nat ->
  back (mFrameTimes (recordAll HISTORY_SIZE (calls ++ [c]) s))
  = Ok (sampleOf c)
  /\ mLastUpdatedTime (recordAll HISTORY_SIZE (calls ++ [c]) s)
     = queueTime (sampleOf c)
  /\ 0 <= mLastUpdatedTime (recordAll HISTORY_SIZE (calls ++ [c]) s)
  /\ snd c <= mLastUpdatedTime (recordAll HISTORY_SIZE (calls ++ [c]) s).
Proof.
  intros Hpos. rewrite recordAll_snoc. destruct c as [p n].
  split; [|split; [reflexivity|]].
  - unfold back. cbn [fst snd].
    rewrite setLastPresentTime_back_opt by exact Hpos. reflexivity.
  - cbn. lia.
Qed.

(** X3.  Once at least [HISTORY_SIZE] calls have been made on a history
    within its capacity, nothing of the earlier history is left: the
    history is the samples of the newest [HISTORY_SIZE] calls. *)
Theorem history_flushed (calls : list (Z * Z)) (s : LayerInfoV2) :
  (length (mFrameTimes s) <= HISTORY_SIZE)%nat ->
  (HISTORY_SIZE <= length calls)%nat ->
  mFrameTimes (recordAll HISTORY_SIZE calls s)
  = lastn HISTORY_SIZE (map sampleOf calls).
Proof.
  intros Hle Hcalls. rewrite recordAll_length_le by exact Hle.
  apply lastn_app_newest. rewrite length_map. exact Hcalls.
Qed.

(** X4.  With a capacity of at least one, right after
    [setLastPresentTime lastPresentTime now] the layer is recently active
    at time [t] exactly when the active-layer threshold of [t] is at most
    [max (max lastPresentTime 0) now]; the query performs no out-of-bounds
    access. *)
Theorem isRecentlyActive_after_update (threshold : Z -> Z) (p n t : Z)
    (s : LayerInfoV2) :
  (0 < HISTORY_SIZE)%nat ->
  isRecentlyActive threshold t (setLastPresentTime HISTORY_SIZE p n s)
  = Ok (threshold t <=? Z.max (Z.max p 0) n).
Proof.
  intros Hpos. unfold isRecentlyActive.
  pose proof (setLastPresentTime_back_opt p n s Hpos) as Hback.
  destruct (mFrameTimes (setLastPresentTime HISTORY_SIZE p n s)) as [|x rest]
    eqn:E; [discriminate|].
  unfold back. rewrite Hback. reflexivity.
Qed.

End HistoryMore.

(** * Further properties of the queries and of the heuristic *)

Lemma back_opt_nonempty {A : Type} (d : list A) :
  d <> [] -> exists x, back_opt d = Some x.
Proof.
  induction d as [|y d IH]; [congruence|]. intros _.
  destruct d as [|z d']; [exists y; reflexivity|].
  destruct IH as [x Hx]; [discriminate|]. exists x. exact Hx.
Qed.

Lemma lastn_cons_inv {A : Type} (k : nat) (d : list A) :
  (0 < k)%nat -> (k <= length d)%nat ->
  exists x rest, lastn k d = x :: rest.
Proof.
  intros Hpos Hle. pose proof (lastn_length k d) as Hlen.
  destruct (lastn k d) as [|x rest]; [simpl in Hlen; lia|].
  exists x, rest. reflexivity.
Qed.

Lemma exceedsMargin_same (c : F32.t) : exceedsMargin c c = false.
Proof.
  destruct c as [sg|sg| |sg m e];
    [destruct sg; reflexivity | destruct sg; reflexivity | reflexivity |].
  unfold exceedsMargin, F32.gtb, F32.abs, F32.sub, SFsub. cbv zeta.
  rewrite Z.sub_diag. reflexivity.
Qed.

Lemma exceedsMargin_nan (l : F32.t) : exceedsMargin S754_nan l = false.
Proof.
  reflexivity.
Qed.

Lemma candidateRate_frames (s1 s2 : LayerInfoV2) :
  mFrameTimes s1 = mFrameTimes s2 ->
  mHighRefreshRatePeriod s1 = mHighRefreshRatePeriod s2 ->
  deltas s1 = deltas s2
  /\ averageDelta s1 = averageDelta s2
  /\ candidateRate s1 = candidateRate s2.
Proof.
  intros Hf Hp. unfold candidateRate, averageDelta, deltas.
  rewrite Hf, Hp. auto.
Qed.

Section QueriesMore.

Variable HISTORY_SIZE : nat.
Variable FREQUENT_LAYER_WINDOW_SIZE : nat.
Variable MAX_FREQUENT_LAYER_PERIOD_NS : Z.
Variable HISTORY_TIME : Z.

(** On a history of at least [FREQUENT_LAYER_WINDOW_SIZE] samples the
    iterator [end() - FREQUENT_LAYER_WINDOW_SIZE] points to the oldest of
    the newest [FREQUENT_LAYER_WINDOW_SIZE] samples. *)
Lemma isFrequent_window (now : Z) (s : LayerInfoV2) :
  (0 < FREQUENT_LAYER_WINDOW_SIZE)%nat ->
  (FREQUENT_LAYER_WINDOW_SIZE <= length (mFrameTimes s))%nat ->
  exists it rest,
    lastn FREQUENT_LAYER_WINDOW_SIZE (mFrameTimes s) = it :: rest
    /\ isFrequent FREQUENT_LAYER_WINDOW_SIZE MAX_FREQUENT_LAYER_PERIOD_NS
         now s
       = Ok (withinFrequentPeriod MAX_FREQUENT_LAYER_PERIOD_NS now it).
Proof.
  intros Hpos Hle.
  destruct (lastn_cons_inv _ (mFrameTimes s) Hpos Hle) as (it & rest & E).
  exists it, rest. split; [exact E|].
  unfold isFrequent.
  replace (length (mFrameTimes s) <? FREQUENT_LAYER_WINDOW_SIZE)%nat
    with false by (symmetry; apply Nat.ltb_ge; exact Hle).
  unfold at_index. rewrite nth_error_skipn_hd.
  unfold lastn in E. rewrite E. reflexivity.
Qed.

Lemma isFrequent_returns (now : Z) (s : LayerInfoV2) :
  (0 < FREQUENT_LAYER_WINDOW_SIZE)%nat ->
  exists b,
    isFrequent FREQUENT_LAYER_WINDOW_SIZE MAX_FREQUENT_LAYER_PERIOD_NS now s
    = Ok b.
Proof.
  intros Hpos.
  destruct (Nat.ltb_spec (length (mFrameTimes s)) FREQUENT_LAYER_WINDOW_SIZE)
    as [Hfew|Hle].
  - exists true. unfold isFrequent.
    replace (length (mFrameTimes s) <? FREQUENT_LAYER_WINDOW_SIZE)%nat
      with true by (symmetry; apply Nat.ltb_lt; exact Hfew).
    reflexivity.
  - destruct (isFrequent_window now s Hpos Hle) as (it & rest & _ & E).
    eexists. exact E.
Qed.

Lemma hasEnoughDataForHeuristic_returns (s : LayerInfoV2) :
  mFrameTimes s <> [] ->
  exists b, hasEnoughDataForHeuristic HISTORY_SIZE HISTORY_TIME s = Ok b.
Proof.
  intros Hne. unfold hasEnoughDataForHeuristic.
  destruct (_ <? _)%nat; [|exists true; reflexivity].
  destruct (back_opt_nonempty _ Hne) as [newest Hback].
  unfold back, front. rewrite Hback.
  destruct (mFrameTimes s) as [|oldest rest]; [congruence|].
  cbn [hd_error deref bind].
  destruct (_ <? _); eexists; reflexivity.
Qed.

Lemma calculateRefreshRateIfPossible_returns (s : LayerInfoV2) :
  mFrameTimes s <> [] ->
  exists r s',
    calculateRefreshRateIfPossible HISTORY_SIZE HISTORY_TIME s = Ok (r, s').
Proof.
  intros Hne.
  destruct (hasEnoughDataForHeuristic_returns s Hne) as [[|] Henough].
  - rewrite (calculateRefreshRateIfPossible_spec _ _ s Hne Henough).
    destruct (existsb hasSentinelb _); [eexists; eexists; reflexivity|].
    destruct (existsb (deviates _) _); eexists; eexists; reflexivity.
  - unfold calculateRefreshRateIfPossible. rewrite Henough.
    eexists; eexists; reflexivity.
Qed.

Lemma getRefreshRate_returns (now : Z) (s : LayerInfoV2) :
  (0 < FREQUENT_LAYER_WINDOW_SIZE)%nat ->
  mFrameTimes s <> [] ->
  exists v s',
    getRefreshRate HISTORY_SIZE FREQUENT_LAYER_WINDOW_SIZE
      MAX_FREQUENT_LAYER_PERIOD_NS HISTORY_TIME now s = Ok (v, s').
Proof.
  intros Hpos Hne. unfold getRefreshRate.
  destruct (negb _); [eexists; eexists; reflexivity|].
  destruct (isFrequent_returns now s Hpos) as [[|] Hfreq]; rewrite Hfreq;
    cbn [bind negb]; [|eexists; eexists; reflexivity].
  destruct (calculateRefreshRateIfPossible_returns s Hne)
    as ([r|] & s' & Hcalc); rewrite Hcalc; eexists; eexists; reflexivity.
Qed.

(** X5.  On a history of at least [FREQUENT_LAYER_WINDOW_SIZE] samples
    whose queue times never go back, [isFrequent] answers whether every one
    of the newest [FREQUENT_LAYER_WINDOW_SIZE] samples was queued at or
    after [now - MAX_FREQUENT_LAYER_PERIOD_NS]. *)
Theorem isFrequent_whole_window (now : Z) (s : LayerInfoV2) :
  (0 < FREQUENT_LAYER_WINDOW_SIZE)%nat ->
  (FREQUENT_LAYER_WINDOW_SIZE <= length (mFrameTimes s))%nat ->
  Sorted Z.le (queueTimes s) ->
  isFrequent FREQUENT_LAYER_WINDOW_SIZE MAX_FREQUENT_LAYER_PERIOD_NS now s
  = Ok (forallb (withinFrequentPeriod MAX_FREQUENT_LAYER_PERIOD_NS now)
          (lastn FREQUENT_LAYER_WINDOW_SIZE (mFrameTimes s))).
Proof.
  intros Hpos Hle Hsorted.
  destruct (isFrequent_window now s Hpos Hle) as (it & rest & E & Hfreq).
  rewrite Hfreq, E. cbn [forallb].
  destruct (withinFrequentPeriod _ now it) eqn:Hit; [|reflexivity].
  cbn [andb]. f_equal. symmetry. apply forallb_forall. intros f Hf.
  assert (Hwin : Sorted Z.le (map queueTime (it :: rest))).
  { rewrite <- E. unfold lastn. rewrite <- skipn_map.
    apply Sorted_skipn. exact Hsorted. }
  apply Sorted_StronglySorted in Hwin; [|exact Z.le_trans].
  cbn [map] in Hwin. apply StronglySorted_inv in Hwin.
  destruct Hwin as [_ Hall]. rewrite Forall_forall in Hall.
  specialize (Hall (queueTime f) (in_map queueTime rest f Hf)).
  unfold withinFrequentPeriod in *. apply Z.leb_le in Hit.
  apply Z.leb_le. lia.
Qed.

(** X6.  With a frequency window of at least one sample, [getRefreshRate]
    performs no out-of-bounds access on a non-empty history; with a
    capacity of at least one, that is the case after every
    [setLastPresentTime]. *)
Theorem getRefreshRate_in_bounds (now : Z) (s : LayerInfoV2) :
  (0 < FREQUENT_LAYER_WINDOW_SIZE)%nat ->
  (mFrameTimes s <> [] ->
   exists v s',
     getRefreshRate HISTORY_SIZE FREQUENT_LAYER_WINDOW_SIZE
       MAX_FREQUENT_LAYER_PERIOD_NS HISTORY_TIME now s = Ok (v, s'))
  /\ ((0 < HISTORY_SIZE)%nat ->
      forall p n : Z,
      exists v s',
        getRefreshRate HISTORY_SIZE FREQUENT_LAYER_WINDOW_SIZE
          MAX_FREQUENT_LAYER_PERIOD_NS HISTORY_TIME now
          (setLastPresentTime HISTORY_SIZE p n s) = Ok (v, s')).
Proof.
  intros Hwin. split.
  - intros Hne. apply getRefreshRate_returns; assumption.
  - intros Hcap p n. apply getRefreshRate_returns; [exact Hwin|].
    intros E.
    pose proof (setLastPresentTime_back_opt HISTORY_SIZE p n s Hcap) as Hb.
    rewrite E in Hb. discriminate.
Qed.

(** X7.  Once at least [HISTORY_SIZE] calls have been made on a history
    within its capacity, [hasEnoughDataForHeuristic] holds, whatever the
    time span of the samples. *)
Theorem enough_data_after_capacity_calls (calls : list (Z * Z))
    (s : LayerInfoV2) :
  (length (mFrameTimes s) <= HISTORY_SIZE)%nat ->
  (HISTORY_SIZE <= length calls)%nat ->
  hasEnoughDataForHeuristic HISTORY_SIZE HISTORY_TIME
    (recordAll HISTORY_SIZE calls s) = Ok true.
Proof.
  intros Hle Hcalls. unfold hasEnoughDataForHeuristic.
  rewrite (recordAll_length_le HISTORY_SIZE calls s Hle).
  rewrite lastn_length, length_app, length_map.
  replace (Nat.min (length (mFrameTimes s) + length calls) HISTORY_SIZE
           <? HISTORY_SIZE)%nat
    with false by (symmetry; apply Nat.ltb_ge; lia).
  reflexivity.
Qed.

(** X8.  On a history of a single sample that passes
    [hasEnoughDataForHeuristic] (a capacity of one, or a non-positive
    [HISTORY_TIME]) there is no pair: the average is 0/0, a NaN, so is the
    candidate, and the call returns the previously reported rate and
    leaves the state as it was. *)
Theorem single_sample_reports_previous_rate (s : LayerInfoV2)
    (x : FrameTimeData) :
  mFrameTimes s = [x] ->
  hasEnoughDataForHeuristic HISTORY_SIZE HISTORY_TIME s = Ok true ->
  isNaN (candidateRate s) = true
  /\ calculateRefreshRateIfPossible HISTORY_SIZE HISTORY_TIME s
     = Ok (Some (mLastReportedRefreshRate s), s).
Proof.
  intros Hx Henough.
  assert (Hc : candidateRate s = S754_nan).
  { unfold candidateRate, averageDelta, deltas. rewrite Hx. reflexivity. }
  split; [rewrite Hc; reflexivity|].
  rewrite calculateRefreshRateIfPossible_spec;
    [| rewrite Hx; discriminate | exact Henough].
  unfold deltas. rewrite Hx. cbn [pairs map existsb].
  unfold report. rewrite Hc, exceedsMargin_nan. reflexivity.
Qed.

(** X9.  A call that returned a value, repeated at once on the state it
    left, returns the same value and leaves that state as it is. *)
Theorem calculateRefreshRateIfPossible_idempotent (s s1 : LayerInfoV2)
    (v : F32.t) :
  calculateRefreshRateIfPossible HISTORY_SIZE HISTORY_TIME s
    = Ok (Some v, s1) ->
  calculateRefreshRateIfPossible HISTORY_SIZE HISTORY_TIME s1
    = Ok (Some v, s1).
Proof.
  intros H.
  destruct (calculateRefreshRateIfPossible_some _ _ s s1 v H)
    as [Hne Henough].
  destruct (calculateRefreshRateIfPossible_some_report _ _ s s1 v H)
    as (Hsent & Hdev & Hs1 & Hv).
  pose proof (report_sameButReportedRate (candidateRate s) s) as Hsame.
  rewrite <- Hs1 in Hsame. unfold sameButReportedRate in Hsame.
  assert (Hf : mFrameTimes s1 = mFrameTimes s)
    by (rewrite Hsame; reflexivity).
  assert (Hp : mHighRefreshRatePeriod s1 = mHighRefreshRatePeriod s)
    by (rewrite Hsame; reflexivity).
  destruct (candidateRate_frames s1 s Hf Hp) as (Hd & Ha & Hc).
  assert (Hstay : exceedsMargin (candidateRate s)
                    (mLastReportedRefreshRate s1) = false).
  { rewrite Hs1. unfold report.
    destruct (exceedsMargin (candidateRate s) (mLastReportedRefreshRate s))
      eqn:Hm; [apply exceedsMargin_same | exact Hm]. }
  rewrite calculateRefreshRateIfPossible_spec.
  - rewrite Hf, Hsent, Ha, Hd, Hdev, Hc.
    unfold report. rewrite Hstay, <- Hv. reflexivity.
  - rewrite Hf. exact Hne.
  - rewrite (hasEnoughDataForHeuristic_frames _ _ s1 s Hf). exact Henough.
Qed.

End QueriesMore.

(** * Further properties of the vote *)

Lemma report_not_nan (c : F32.t) (s : LayerInfoV2) :
  isNaN (mLastReportedRefreshRate s) = false ->
  isNaN (mLastReportedRefreshRate (report c s)) = false.
Proof.
  intros Hs. unfold report.
  destruct (exceedsMargin c (mLastReportedRefreshRate s)) eqn:Hm;
    [|exact Hs].
  destruct c; try reflexivity. discriminate Hm.
Qed.

Section VoteMore.

Variable HISTORY_SIZE : nat.
Variable FREQUENT_LAYER_WINDOW_SIZE : nat.
Variable MAX_FREQUENT_LAYER_PERIOD_NS : Z.
Variable HISTORY_TIME : Z.

Lemma recordAll_mHighRefreshRatePeriod (calls : list (Z * Z)) :
  forall s : LayerInfoV2,
    mHighRefreshRatePeriod (recordAll HISTORY_SIZE calls s)
    = mHighRefreshRatePeriod s.
Proof.
  induction calls as [|c calls IH]; intros s; [reflexivity|].
  simpl. rewrite IH. reflexivity.
Qed.

(** X10.  A layer whose vote type is [Heuristic] and whose reported rate is
    not a NaN never votes a NaN rate, and its reported rate stays a
    non-NaN: a NaN candidate never passes the margin test. *)
Theorem heuristic_vote_never_nan (now : Z) (s s' : LayerInfoV2)
    (kind : LayerVoteType) (rate : F32.t) :
  type (mLayerVote s) = Heuristic ->
  isNaN (mLastReportedRefreshRate s) = false ->
  getRefreshRate HISTORY_SIZE FREQUENT_LAYER_WINDOW_SIZE
    MAX_FREQUENT_LAYER_PERIOD_NS HISTORY_TIME now s = Ok ((kind, rate), s') ->
  isNaN rate = false /\ isNaN (mLastReportedRefreshRate s') = false.
Proof.
  intros Hkind Hrate H. unfold getRefreshRate in H.
  rewrite Hkind in H. cbn [LayerVoteType_eqb negb] in H.
  destruct (isFrequent _ _ now s) as [[|]|]; cbn [bind negb] in H;
    [| injection H as _ <- <-; auto | discriminate].
  destruct (calculateRefreshRateIfPossible _ _ s) as [[[r|] st]|] eqn:Hcalc;
    cbn [bind] in H; [| | discriminate].
  - injection H as _ <- <-.
    destruct (calculateRefreshRateIfPossible_some_report _ _ s st r Hcalc)
      as (_ & _ & Hst & Hr).
    rewrite Hr, Hst. split; apply report_not_nan; exact Hrate.
  - injection H as _ <- <-.
    rewrite (calculateRefreshRateIfPossible_none _ _ s st Hcalc). auto.
Qed.

(** X11.  Present times are clamped at zero when stored, so the
    subtraction of two stored present times never wraps around: as long as
    the present times passed in are [nsecs_t] values, every delta of the
    history is [max (next - cur) mHighRefreshRatePeriod] over the
    integers. *)
Theorem present_time_deltas_exact (calls : list (Z * Z)) (s : LayerInfoV2) :
  Forall presentTimeInRange (mFrameTimes s) ->
  Forall (fun c => fst c <= Int64.max_signed) calls ->
  Forall presentTimeInRange (mFrameTimes (recordAll HISTORY_SIZE calls s))
  /\ deltas (recordAll HISTORY_SIZE calls s)
     = map (exactDelta (mHighRefreshRatePeriod s))
         (pairs (mFrameTimes (recordAll HISTORY_SIZE calls s))).
Proof.
  intros Hs Hcalls.
  assert (Hall : Forall presentTimeInRange
                   (mFrameTimes (recordAll HISTORY_SIZE calls s))).
  { apply recordAll_Forall; [|exact Hs].
    apply Forall_impl with (2 := Hcalls). intros [p n] Hp.
    unfold presentTimeInRange, sampleOf, Int64.max_signed in *.
    cbn [fst snd presetTime] in *. lia. }
  split; [exact Hall|].
  unfold deltas. rewrite recordAll_mHighRefreshRatePeriod.
  apply map_ext_in. intros p Hin.
  destruct (pairs_In _ p Hin) as [H1 H2].
  rewrite Forall_forall in Hall.
  pose proof (Hall _ H1) as R1. pose proof (Hall _ H2) as R2.
  unfold presentTimeInRange, Int64.max_signed in R1, R2.
  unfold pairDelta, presentTimeDelta, exactDelta, Int64.sub.
  rewrite Int64_wrap_small;
    [reflexivity | unfold Int64.min_signed, Int64.max_signed; lia].
Qed.

(** X12.  With a capacity and a frequency window of at least two samples
    and a positive [HISTORY_TIME], a [Heuristic] layer votes [(Max, 0)]
    right after its first frame, and the query leaves the state alone. *)
Theorem first_frame_votes_max (p n now : Z) (s0 : LayerInfoV2) :
  mFrameTimes s0 = [] ->
  type (mLayerVote s0) = Heuristic ->
  (2 <= HISTORY_SIZE)%nat ->
  (2 <= FREQUENT_LAYER_WINDOW_SIZE)%nat ->
  0 < HISTORY_TIME ->
  getRefreshRate HISTORY_SIZE FREQUENT_LAYER_WINDOW_SIZE
    MAX_FREQUENT_LAYER_PERIOD_NS HISTORY_TIME now
    (setLastPresentTime HISTORY_SIZE p n s0)
  = Ok ((Max, F32.zero), setLastPresentTime HISTORY_SIZE p n s0).
Proof.
  intros Hempty Hkind Hcap Hwin Htime.
  assert (Hf : mFrameTimes (setLastPresentTime HISTORY_SIZE p n s0)
               = [sampleOf (p, n)]).
  { rewrite setLastPresentTime_frames_eq, Hempty. cbn [app length].
    replace (HISTORY_SIZE <? 1)%nat with false
      by (symmetry; apply Nat.ltb_ge; lia).
    reflexivity. }
  unfold getRefreshRate, isFrequent, calculateRefreshRateIfPossible,
    hasEnoughDataForHeuristic.
  rewrite Hf.
  change (mLayerVote (setLastPresentTime HISTORY_SIZE p n s0))
    with (mLayerVote s0).
  rewrite Hkind. cbn [LayerVoteType_eqb negb length].
  replace (1 <? FREQUENT_LAYER_WINDOW_SIZE)%nat with true
    by (symmetry; apply Nat.ltb_lt; lia).
  replace (1 <? HISTORY_SIZE)%nat with true
    by (symmetry; apply Nat.ltb_lt; lia).
  cbn [bind negb back front back_opt hd_error deref].
  rewrite Int64_sub_diag.
  replace (0 <? HISTORY_TIME) with true by (symmetry; apply Z.ltb_lt; lia).
  reflexivity.
Qed.

(** X13.  A layer constructed with a default vote other than [Heuristic]
    votes that type with rate 0 after any run of [setLastPresentTime]
    calls, without reading the history and without changing the state. *)
Theorem default_vote_returned (period now : Z) (defaultVote : LayerVoteType)
    (calls : list (Z * Z)) :
  defaultVote <> Heuristic ->
  getRefreshRate HISTORY_SIZE FREQUENT_LAYER_WINDOW_SIZE
    MAX_FREQUENT_LAYER_PERIOD_NS HISTORY_TIME now
    (recordAll HISTORY_SIZE calls (LayerInfoV2_new period defaultVote))
  = Ok ((defaultVote, F32.zero),
        recordAll HISTORY_SIZE calls (LayerInfoV2_new period defaultVote)).
Proof.
  intros Hkind. unfold getRefreshRate.
  rewrite recordAll_mLayerVote. cbn [LayerInfoV2_new mLayerVote type fps].
  destruct (LayerVoteType_eqb defaultVote Heuristic) eqn:E; [|reflexivity].
  apply LayerVoteType_eqb_eq in E. contradiction.
Qed.

(** X14.  A [Heuristic] layer with at least [FREQUENT_LAYER_WINDOW_SIZE]
    samples, the oldest of the newest [FREQUENT_LAYER_WINDOW_SIZE] of which
    was queued before [now - MAX_FREQUENT_LAYER_PERIOD_NS], votes
    [(Min, 0)], whatever the rest of the history, and the state is left
    alone. *)
Theorem infrequent_votes_min (now : Z) (s : LayerInfoV2)
    (it : FrameTimeData) (rest : list FrameTimeData) :
  type (mLayerVote s) = Heuristic ->
  (FREQUENT_LAYER_WINDOW_SIZE <= length (mFrameTimes s))%nat ->
  lastn FREQUENT_LAYER_WINDOW_SIZE (mFrameTimes s) = it :: rest ->
  queueTime it < Int64.sub now MAX_FREQUENT_LAYER_PERIOD_NS ->
  getRefreshRate HISTORY_SIZE FREQUENT_LAYER_WINDOW_SIZE
    MAX_FREQUENT_LAYER_PERIOD_NS HISTORY_TIME now s
  = Ok ((Min, F32.zero), s).
Proof.
  intros Hkind Hle Hwin Hold.
  assert (Hpos : (0 < FREQUENT_LAYER_WINDOW_SIZE)%nat).
  { pose proof (lastn_length FREQUENT_LAYER_WINDOW_SIZE (mFrameTimes s))
      as Hlen.
    rewrite Hwin in Hlen. simpl in Hlen. lia. }
  destruct (isFrequent_window _ MAX_FREQUENT_LAYER_PERIOD_NS now s Hpos Hle)
    as (it' & rest' & E & Hfreq).
  rewrite Hwin in E. injection E as <- <-.
  unfold getRefreshRate. rewrite Hkind, Hfreq.
  unfold withinFrequentPeriod.
  replace (Int64.sub now MAX_FREQUENT_LAYER_PERIOD_NS <=? queueTime it)
    with false by (symmetry; apply Z.leb_gt; exact Hold).
  reflexivity.
Qed.

End VoteMore.

(** * The total of the deltas and the bounds of the accesses *)


Section Bounds.

Variable HISTORY_SIZE : nat.
Variable FREQUENT_LAYER_WINDOW_SIZE : nat.
Variable MAX_FREQUENT_LAYER_PERIOD_NS : Z.
Variable HISTORY_TIME : Z.


(** X16.  [isFrequent] stays within the history on every state exactly
    when [FREQUENT_LAYER_WINDOW_SIZE] is at least one: with a window of
    zero the iterator is [end()] and reading it is out of bounds. *)
Theorem isFrequent_in_bounds_iff (now : Z) (s : LayerInfoV2) :
  (exists b,
     isFrequent FREQUENT_LAYER_WINDOW_SIZE MAX_FREQUENT_LAYER_PERIOD_NS now s
     = Ok b)
  <-> (0 < FREQUENT_LAYER_WINDOW_SIZE)%nat.
Proof.
  split; [|apply isFrequent_returns].
  intros [b Hb].
  destruct FREQUENT_LAYER_WINDOW_SIZE as [|w] eqn:E; [|lia].
  exfalso. unfold isFrequent, at_index in Hb. cbn [Nat.ltb Nat.leb] in Hb.
  rewrite Nat.sub_0_r in Hb.
  replace (nth_error (mFrameTimes s) (length (mFrameTimes s)))
    with (@None FrameTimeData) in Hb
    by (symmetry; apply nth_error_None; lia).
  discriminate.
Qed.

(** X17.  [calculateRefreshRateIfPossible] reads out of bounds exactly on
    the empty history, whatever the constants. *)
Theorem calculateRefreshRateIfPossible_out_of_bounds_iff (s : LayerInfoV2) :
  calculateRefreshRateIfPossible HISTORY_SIZE HISTORY_TIME s = OutOfBounds
  <-> mFrameTimes s = [].
Proof.
  split.
  - intros H. destruct (mFrameTimes s) as [|x l] eqn:E; [reflexivity|].
    exfalso.
    destruct (calculateRefreshRateIfPossible_returns
                HISTORY_SIZE HISTORY_TIME s) as (r & s' & Hr);
      [rewrite E; discriminate|].
    rewrite Hr in H. discriminate.
  - intros E.
    unfold calculateRefreshRateIfPossible, hasEnoughDataForHeuristic.
    rewrite E. cbn [length].
    destruct HISTORY_SIZE; reflexivity.
Qed.

End Bounds.

(** * The vote on every state *)

Section Resolve.

Variable HISTORY_SIZE : nat.
Variable FREQUENT_LAYER_WINDOW_SIZE : nat.
Variable MAX_FREQUENT_LAYER_PERIOD_NS : Z.
Variable HISTORY_TIME : Z.

Lemma calculateRefreshRateIfPossible_empty (s : LayerInfoV2) :
  mFrameTimes s = [] ->
  calculateRefreshRateIfPossible HISTORY_SIZE HISTORY_TIME s = OutOfBounds.
Proof.
  intros E.
  unfold calculateRefreshRateIfPossible, hasEnoughDataForHeuristic.
  rewrite E. cbn [length].
  destruct HISTORY_SIZE; reflexivity.
Qed.

Lemma isFrequent_few (now : Z) (s : LayerInfoV2) :
  (length (mFrameTimes s) < FREQUENT_LAYER_WINDOW_SIZE)%nat ->
  isFrequent FREQUENT_LAYER_WINDOW_SIZE MAX_FREQUENT_LAYER_PERIOD_NS now s
  = Ok true.
Proof.
  intros Hfew. unfold isFrequent.
  replace (length (mFrameTimes s) <? FREQUENT_LAYER_WINDOW_SIZE)%nat
    with true by (symmetry; apply Nat.ltb_lt; exact Hfew).
  reflexivity.
Qed.

(** C1, the behaviour of the code on every state.  With a frequency window
    of at least one sample, [getRefreshRate] returns the stored vote when
    its type is not [Heuristic].  When it is [Heuristic] and the history is
    not empty, [isFrequent] and, if needed, [calculateRefreshRateIfPossible]
    return, and the vote is [(Min, 0)] when [isFrequent] is false,
    [(Heuristic, v)] when the estimate is [v] and [(Max, 0)] when there is
    no estimate.  When it is [Heuristic] and the history is empty, no vote
    is returned: the call reads the history out of bounds. *)
Theorem getRefreshRate_resolves (now : Z) (s : LayerInfoV2) :
  (0 < FREQUENT_LAYER_WINDOW_SIZE)%nat ->
  (type (mLayerVote s) <> Heuristic ->
   getRefreshRate HISTORY_SIZE FREQUENT_LAYER_WINDOW_SIZE
     MAX_FREQUENT_LAYER_PERIOD_NS HISTORY_TIME now s
   = Ok ((type (mLayerVote s), fps (mLayerVote s)), s))
  /\ (type (mLayerVote s) = Heuristic ->
      mFrameTimes s <> [] ->
      exists frequent : bool,
        isFrequent FREQUENT_LAYER_WINDOW_SIZE MAX_FREQUENT_LAYER_PERIOD_NS
          now s = Ok frequent
        /\ (frequent = false ->
            getRefreshRate HISTORY_SIZE FREQUENT_LAYER_WINDOW_SIZE
              MAX_FREQUENT_LAYER_PERIOD_NS HISTORY_TIME now s
            = Ok ((Min, F32.zero), s))
        /\ (frequent = true ->
            exists (estimate : option F32.t) (s' : LayerInfoV2),
              calculateRefreshRateIfPossible HISTORY_SIZE HISTORY_TIME s
              = Ok (estimate, s')
              /\ getRefreshRate HISTORY_SIZE FREQUENT_LAYER_WINDOW_SIZE
                   MAX_FREQUENT_LAYER_PERIOD_NS HISTORY_TIME now s
                 = Ok (match estimate with
                       | Some v => (Heuristic, v)
                       | None => (Max, F32.zero)
                       end, s')))
  /\ (type (mLayerVote s) = Heuristic ->
      mFrameTimes s = [] ->
      getRefreshRate HISTORY_SIZE FREQUENT_LAYER_WINDOW_SIZE
        MAX_FREQUENT_LAYER_PERIOD_NS HISTORY_TIME now s
      = OutOfBounds).
Proof.
  intros Hwin. unfold getRefreshRate. split; [|split].
  - intros Hkind.
    destruct (LayerVoteType_eqb (type (mLayerVote s)) Heuristic) eqn:E;
      [|reflexivity].
    apply LayerVoteType_eqb_eq in E. contradiction.
  - intros Hkind Hne. rewrite Hkind. cbn [LayerVoteType_eqb negb].
    destruct (isFrequent_returns FREQUENT_LAYER_WINDOW_SIZE
                MAX_FREQUENT_LAYER_PERIOD_NS now s Hwin) as [frequent Hf].
    exists frequent. split; [exact Hf|]. rewrite Hf. cbn [bind].
    split; intros ->; cbn [negb]; [reflexivity|].
    destruct (calculateRefreshRateIfPossible_returns
                HISTORY_SIZE HISTORY_TIME s Hne) as (estimate & s' & Hc).
    exists estimate, s'. split; [exact Hc|].
    rewrite Hc. cbn [bind]. destruct estimate; reflexivity.
  - intros Hkind Hempty. rewrite Hkind. cbn [LayerVoteType_eqb negb].
    rewrite isFrequent_few by (rewrite Hempty; exact Hwin).
    cbn [bind negb].
    rewrite (calculateRefreshRateIfPossible_empty s Hempty). reflexivity.
Qed.

End Resolve.

(** * The properties on the scenario *)

Import Scenario.

Lemma getRefreshRate_resolves_witness :
  (0 < FREQUENT_LAYER_WINDOW_SIZE)%nat
  /\ getRefreshRate HISTORY_SIZE FREQUENT_LAYER_WINDOW_SIZE
       MAX_FREQUENT_LAYER_PERIOD_NS HISTORY_TIME 0 fresh
     = OutOfBounds
  /\ getRefreshRate HISTORY_SIZE FREQUENT_LAYER_WINDOW_SIZE
       MAX_FREQUENT_LAYER_PERIOD_NS HISTORY_TIME 50000001 steady
     = Ok ((Heuristic, rate60), steadyReported).
Proof.
  assert (Hwin : (0 < FREQUENT_LAYER_WINDOW_SIZE)%nat)
    by (unfold FREQUENT_LAYER_WINDOW_SIZE; lia).
  split; [exact Hwin|]. split.
  - apply (getRefreshRate_resolves HISTORY_SIZE FREQUENT_LAYER_WINDOW_SIZE
             MAX_FREQUENT_LAYER_PERIOD_NS HISTORY_TIME 0 fresh Hwin);
      reflexivity.
  - destruct (getRefreshRate_resolves HISTORY_SIZE
                FREQUENT_LAYER_WINDOW_SIZE MAX_FREQUENT_LAYER_PERIOD_NS
                HISTORY_TIME 50000001 steady Hwin) as (_ & Hvote & _).
    destruct Hvote as (frequent & Hfreq & _ & Htrue);
      [reflexivity | vm_compute; discriminate |].
    assert (Hf : isFrequent FREQUENT_LAYER_WINDOW_SIZE
                   MAX_FREQUENT_LAYER_PERIOD_NS 50000001 steady = Ok true)
      by (vm_compute; reflexivity).
    rewrite Hf in Hfreq. injection Hfreq as <-.
    destruct (Htrue eq_refl) as (estimate & s' & Hcalc & Hget).
    assert (Hc : calculateRefreshRateIfPossible HISTORY_SIZE HISTORY_TIME
                   steady = Ok (Some rate60, steadyReported))
      by (vm_compute; reflexivity).
    rewrite Hc in Hcalc. injection Hcalc as <- <-.
    exact Hget.
Defined.

(** C2 as stated fails: the [now] values 0, 1 do not go back, yet the
    stored queue times are 100, 1. *)
Lemma queueTime_not_monotonic :
  Sorted Z.le (map snd futureCalls)
  /\ ~ Sorted Z.le (queueTimes (recordAll HISTORY_SIZE futureCalls fresh)).
Proof.
  split.
  - unfold futureCalls. simpl. repeat constructor. lia.
  - assert (E : queueTimes (recordAll HISTORY_SIZE futureCalls fresh)
                = [100; 1]) by (vm_compute; reflexivity).
    rewrite E. intros H. apply Sorted_inv in H. destruct H as [_ Hhd].
    apply HdRel_inv in Hhd. lia.
Qed.

Lemma queueTime_monotonic_witness :
  mFrameTimes fresh = []
  /\ Sorted callsInOrder steadyCalls
  /\ Sorted Z.le (queueTimes (recordAll HISTORY_SIZE steadyCalls fresh)).
Proof.
  assert (Hcalls : Sorted callsInOrder steadyCalls)
    by (unfold steadyCalls, callsInOrder; repeat constructor; simpl; lia).
  split; [reflexivity|]. split; [exact Hcalls|].
  apply (queueTime_monotonic HISTORY_SIZE steadyCalls fresh);
    [reflexivity | exact Hcalls].
Defined.

Lemma history_bounded_fifo_witness :
  mFrameTimes fresh = []
  /\ length (mFrameTimes (recordAll HISTORY_SIZE steadyCalls fresh)) = 3%nat.
Proof.
  split; [reflexivity|].
  apply (history_bounded_fifo HISTORY_SIZE steadyCalls fresh). reflexivity.
Defined.

Lemma hysteresis_update_witness :
  (calculateRefreshRateIfPossible HISTORY_SIZE HISTORY_TIME steadyAbove
   = Ok (Some rate60, steadyReported)
   /\ Claimed.candidateRate period60Hz (mFrameTimes steady) = rate60
   /\ Claimed.exceedsMargin rate60 rate62 = true
   /\ steadyReported = set_mLastReportedRefreshRate rate60 steadyAbove)
  /\ (calculateRefreshRateIfPossible HISTORY_SIZE HISTORY_TIME steadyAtMargin
      = Ok (Some rate61, steadyAtMargin)
      /\ Claimed.exceedsMargin rate60 rate61 = false
      /\ rate61 = mLastReportedRefreshRate steadyAtMargin)
  /\ (calculateRefreshRateIfPossible HISTORY_SIZE HISTORY_TIME steadyNear
      = Ok (Some rate60_5, steadyNear)
      /\ Claimed.exceedsMargin rate60 rate60_5 = false
      /\ rate60_5 = mLastReportedRefreshRate steadyNear).
Proof.
  assert (Hc : Claimed.candidateRate period60Hz (mFrameTimes steady)
               = rate60) by (vm_compute; reflexivity).
  assert (Habove :
    calculateRefreshRateIfPossible HISTORY_SIZE HISTORY_TIME steadyAbove
    = Ok (Some rate60, steadyReported)) by (vm_compute; reflexivity).
  assert (Hat :
    calculateRefreshRateIfPossible HISTORY_SIZE HISTORY_TIME steadyAtMargin
    = Ok (Some rate61, steadyAtMargin)) by (vm_compute; reflexivity).
  assert (Hnear :
    calculateRefreshRateIfPossible HISTORY_SIZE HISTORY_TIME steadyNear
    = Ok (Some rate60_5, steadyNear)) by (vm_compute; reflexivity).
  assert (M62 : Claimed.exceedsMargin rate60 rate62 = true)
    by (vm_compute; reflexivity).
  assert (M61 : Claimed.exceedsMargin rate60 rate61 = false)
    by (vm_compute; reflexivity).
  assert (M60_5 : Claimed.exceedsMargin rate60 rate60_5 = false)
    by (vm_compute; reflexivity).
  split; [|split].
  - split; [exact Habove|]. split; [exact Hc|]. split; [exact M62|].
    apply (hysteresis_update HISTORY_SIZE HISTORY_TIME steadyAbove
             steadyReported rate60 Habove).
    exact M62.
  - split; [exact Hat|]. split; [exact M61|].
    apply (hysteresis_update HISTORY_SIZE HISTORY_TIME steadyAtMargin
             steadyAtMargin rate61 Hat).
  - split; [exact Hnear|]. split; [exact M60_5|].
    apply (hysteresis_update HISTORY_SIZE HISTORY_TIME steadyNear
             steadyNear rate60_5 Hnear).
Defined.

(** The value returned is the reported rate, not the candidate: with
    60.5 Hz reported before, the candidate 60 Hz is within the margin and
    the call returns 60.5 Hz. *)
Example hysteresis_returns_reported_rate :
  candidateRate steadyNear = rate60
  /\ calculateRefreshRateIfPossible HISTORY_SIZE HISTORY_TIME steadyNear
     = Ok (Some rate60_5, steadyNear).
Proof.
  split; vm_compute; reflexivity.
Qed.

Lemma hysteresis_idempotent_witness :
  calculateRefreshRateIfPossible HISTORY_SIZE HISTORY_TIME steady
  = Ok (Some rate60, steadyReported)
  /\ exceedsMargin (candidateRate steadyReported)
       (mLastReportedRefreshRate steadyReported) = false
  /\ calculateRefreshRateIfPossible HISTORY_SIZE HISTORY_TIME steadyReported
     = Ok (Some rate60, steadyReported).
Proof.
  assert (H : calculateRefreshRateIfPossible HISTORY_SIZE HISTORY_TIME steady
              = Ok (Some rate60, steadyReported))
    by (vm_compute; reflexivity).
  assert (Hm : exceedsMargin (candidateRate steadyReported)
                 (mLastReportedRefreshRate steadyReported) = false)
    by (vm_compute; reflexivity).
  split; [exact H|]. split; [exact Hm|].
  apply (hysteresis_idempotent HISTORY_SIZE HISTORY_TIME steady
           steadyReported steadyReported rate60 H);
    [reflexivity | reflexivity | reflexivity | exact Hm].
Defined.

Lemma burst_rejection_witness :
  (Claimed.deltas period60Hz (mFrameTimes burst)
   = [20000000; 20000000; 20000000; 1000000000]
   /\ Claimed.deviates (Claimed.averageDelta period60Hz (mFrameTimes burst))
        1000000000 = true
   /\ calculateRefreshRateIfPossible LARGE_HISTORY_SIZE HISTORY_TIME burst
      = Ok (None, burst))
  /\ (Claimed.deltas (-1000000000) (mFrameTimes backwards)
      = [1000000000; 1000000000; -750000000]
      /\ Claimed.deviates
           (Claimed.averageDelta (-1000000000) (mFrameTimes backwards))
           (-750000000) = true
      /\ calculateRefreshRateIfPossible LARGE_HISTORY_SIZE HISTORY_TIME
           backwards
         = Ok (None, backwards))
  /\ (Claimed.deltas period60Hz (mFrameTimes uneven)
      = [20000000; 20000000; 1000000000]
      /\ existsb
           (Claimed.deviates
              (Claimed.averageDelta period60Hz (mFrameTimes uneven)))
           (Claimed.deltas period60Hz (mFrameTimes uneven)) = false
      /\ calculateRefreshRateIfPossible LARGE_HISTORY_SIZE HISTORY_TIME
           uneven
         = Ok (Some rateUneven,
               set_mLastReportedRefreshRate rateUneven uneven))
  /\ (Claimed.deltas period60Hz (mFrameTimes fast) = [16666667; 16666667]
      /\ existsb
           (Claimed.deviates
              (Claimed.averageDelta period60Hz (mFrameTimes fast)))
           (Claimed.deltas period60Hz (mFrameTimes fast)) = false
      /\ calculateRefreshRateIfPossible HISTORY_SIZE HISTORY_TIME fast
         = Ok (Some rate60, set_mLastReportedRefreshRate rate60 fast)).
Proof.
  assert (Hlarge : (0 < LARGE_HISTORY_SIZE)%nat)
    by (unfold LARGE_HISTORY_SIZE; lia).
  assert (Hsmall : (0 < HISTORY_SIZE)%nat) by (unfold HISTORY_SIZE; lia).
  assert (Dburst : Claimed.deltas period60Hz (mFrameTimes burst)
                   = [20000000; 20000000; 20000000; 1000000000])
    by (vm_compute; reflexivity).
  assert (Vburst : Claimed.deviates
                     (Claimed.averageDelta period60Hz (mFrameTimes burst))
                     1000000000 = true) by (vm_compute; reflexivity).
  assert (Dback : Claimed.deltas (-1000000000) (mFrameTimes backwards)
                  = [1000000000; 1000000000; -750000000])
    by (vm_compute; reflexivity).
  assert (Vback : Claimed.deviates
                    (Claimed.averageDelta (-1000000000)
                       (mFrameTimes backwards))
                    (-750000000) = true) by (vm_compute; reflexivity).
  assert (Duneven : Claimed.deltas period60Hz (mFrameTimes uneven)
                    = [20000000; 20000000; 1000000000])
    by (vm_compute; reflexivity).
  assert (Vuneven : existsb
                      (Claimed.deviates
                         (Claimed.averageDelta period60Hz
                            (mFrameTimes uneven)))
                      (Claimed.deltas period60Hz (mFrameTimes uneven))
                    = false) by (vm_compute; reflexivity).
  assert (Dfast : Claimed.deltas period60Hz (mFrameTimes fast)
                  = [16666667; 16666667]) by (vm_compute; reflexivity).
  assert (Vfast : existsb
                    (Claimed.deviates
                       (Claimed.averageDelta period60Hz (mFrameTimes fast)))
                    (Claimed.deltas period60Hz (mFrameTimes fast))
                  = false) by (vm_compute; reflexivity).
  split; [|split; [|split]].
  - split; [exact Dburst|]. split; [exact Vburst|].
    apply (burst_rejection LARGE_HISTORY_SIZE HISTORY_TIME burst Hlarge).
    + vm_compute. reflexivity.
    + apply no_sentinel_of_existsb. vm_compute. reflexivity.
    + exists 1000000000. split; [|exact Vburst].
      change (mHighRefreshRatePeriod burst) with period60Hz.
      rewrite Dburst. simpl. auto.
  - split; [exact Dback|]. split; [exact Vback|].
    apply (burst_rejection LARGE_HISTORY_SIZE HISTORY_TIME backwards Hlarge).
    + vm_compute. reflexivity.
    + apply no_sentinel_of_existsb. vm_compute. reflexivity.
    + exists (-750000000). split; [|exact Vback].
      change (mHighRefreshRatePeriod backwards) with (-1000000000).
      rewrite Dback. simpl. auto.
  - split; [exact Duneven|]. split; [exact Vuneven|].
    change (Ok (Some rateUneven,
                set_mLastReportedRefreshRate rateUneven uneven))
      with (if Claimed.exceedsMargin
                 (Claimed.candidateRate (mHighRefreshRatePeriod uneven)
                    (mFrameTimes uneven))
                 (mLastReportedRefreshRate uneven)
            then Ok (Some (Claimed.candidateRate
                             (mHighRefreshRatePeriod uneven)
                             (mFrameTimes uneven)),
                     set_mLastReportedRefreshRate
                       (Claimed.candidateRate
                          (mHighRefreshRatePeriod uneven)
                          (mFrameTimes uneven)) uneven)
            else Ok (Some (mLastReportedRefreshRate uneven), uneven)).
    apply (burst_rejection LARGE_HISTORY_SIZE HISTORY_TIME uneven Hlarge).
    + vm_compute. reflexivity.
    + apply no_sentinel_of_existsb. vm_compute. reflexivity.
    + apply existsb_false_In. exact Vuneven.
  - split; [exact Dfast|]. split; [exact Vfast|].
    change (Ok (Some rate60, set_mLastReportedRefreshRate rate60 fast))
      with (if Claimed.exceedsMargin
                 (Claimed.candidateRate (mHighRefreshRatePeriod fast)
                    (mFrameTimes fast))
                 (mLastReportedRefreshRate fast)
            then Ok (Some (Claimed.candidateRate
                             (mHighRefreshRatePeriod fast)
                             (mFrameTimes fast)),
                     set_mLastReportedRefreshRate
                       (Claimed.candidateRate
                          (mHighRefreshRatePeriod fast)
                          (mFrameTimes fast)) fast)
            else Ok (Some (mLastReportedRefreshRate fast), fast)).
    apply (burst_rejection HISTORY_SIZE HISTORY_TIME fast Hsmall).
    + vm_compute. reflexivity.
    + apply no_sentinel_of_existsb. vm_compute. reflexivity.
    + apply existsb_false_In. exact Vfast.
Defined.

Lemma sentinel_rejection_witness :
  hasEnoughDataForHeuristic HISTORY_SIZE HISTORY_TIME withSentinel = Ok true
  /\ calculateRefreshRateIfPossible HISTORY_SIZE HISTORY_TIME withSentinel
     = Ok (None, withSentinel).
Proof.
  assert (H : hasEnoughDataForHeuristic HISTORY_SIZE HISTORY_TIME withSentinel
              = Ok true) by (vm_compute; reflexivity).
  split; [exact H|].
  apply (sentinel_rejection HISTORY_SIZE HISTORY_TIME withSentinel H).
  exists ({| presetTime := 16666667; queueTime := 16666667 |},
          {| presetTime := 0; queueTime := 33333334 |}).
  split; [left; reflexivity | right; reflexivity].
Defined.

Lemma getRefreshRate_frame_witness :
  getRefreshRate HISTORY_SIZE FREQUENT_LAYER_WINDOW_SIZE
    MAX_FREQUENT_LAYER_PERIOD_NS HISTORY_TIME 50000001 steady
  = Ok ((Heuristic, rate60), steadyReported)
  /\ mFrameTimes steadyReported = mFrameTimes steady
  /\ mLayerVote steadyReported = mLayerVote steady.
Proof.
  assert (H : getRefreshRate HISTORY_SIZE FREQUENT_LAYER_WINDOW_SIZE
                MAX_FREQUENT_LAYER_PERIOD_NS HISTORY_TIME 50000001 steady
              = Ok ((Heuristic, rate60), steadyReported))
    by (vm_compute; reflexivity).
  split; [exact H|].
  destruct (getRefreshRate_frame HISTORY_SIZE FREQUENT_LAYER_WINDOW_SIZE
              MAX_FREQUENT_LAYER_PERIOD_NS HISTORY_TIME 50000001 steady
              steadyReported (Heuristic, rate60) H) as (Hf & Hv & _).
  split; [exact Hf | exact Hv].
Defined.

Lemma enough_data_two_samples_witness :
  hasEnoughDataForHeuristic HISTORY_SIZE HISTORY_TIME steady = Ok true
  /\ (2 <= length (mFrameTimes steady))%nat
  /\ 1 <= SizeT.sub (Z.of_nat (length (mFrameTimes steady))) 1.
Proof.
  assert (H : hasEnoughDataForHeuristic HISTORY_SIZE HISTORY_TIME steady
              = Ok true) by (vm_compute; reflexivity).
  split; [exact H|].
  destruct (enough_data_two_samples HISTORY_SIZE HISTORY_TIME steady)
    as (Hlen & Hdiv & _).
  - unfold HISTORY_SIZE. lia.
  - unfold HISTORY_TIME. lia.
  - vm_compute. split; discriminate.
  - vm_compute. discriminate.
  - exact H.
  - split; [exact Hlen | exact Hdiv].
Defined.

(** * The further properties on the scenario *)

Lemma recorded_samples_wellformed_witness :
  Forall sampleWellFormed (mFrameTimes fresh)
  /\ Forall sampleWellFormed (mFrameTimes steady).
Proof.
  assert (H : Forall sampleWellFormed (mFrameTimes fresh)) by constructor.
  split; [exact H|].
  apply (recorded_samples_wellformed HISTORY_SIZE steadyCalls fresh H).
Defined.

Lemma newest_sample_is_last_call_witness :
  (0 < HISTORY_SIZE)%nat
  /\ back (mFrameTimes
             (recordAll HISTORY_SIZE ([(0, 0)] ++ [(16666667, 16666667)])
                fresh))
     = Ok (sampleOf (16666667, 16666667)).
Proof.
  assert (H : (0 < HISTORY_SIZE)%nat) by (unfold HISTORY_SIZE; lia).
  split; [exact H|].
  apply (newest_sample_is_last_call HISTORY_SIZE [(0, 0)]
           (16666667, 16666667) fresh H).
Defined.

Lemma history_flushed_witness :
  (length (mFrameTimes firstFrame) <= HISTORY_SIZE)%nat
  /\ (HISTORY_SIZE <= length steadyCalls)%nat
  /\ mFrameTimes (recordAll HISTORY_SIZE steadyCalls firstFrame)
     = mFrameTimes steady.
Proof.
  assert (H1 : (length (mFrameTimes firstFrame) <= HISTORY_SIZE)%nat)
    by (vm_compute; lia).
  assert (H2 : (HISTORY_SIZE <= length steadyCalls)%nat)
    by (vm_compute; lia).
  split; [exact H1|]. split; [exact H2|].
  rewrite (history_flushed HISTORY_SIZE steadyCalls firstFrame H1 H2).
  vm_compute. reflexivity.
Defined.

Lemma isRecentlyActive_after_update_witness :
  (0 < HISTORY_SIZE)%nat
  /\ isRecentlyActive (fun t => t - 1200000000) 1000000000
       (setLastPresentTime HISTORY_SIZE 16666667 16666667 fresh)
     = Ok true.
Proof.
  assert (H : (0 < HISTORY_SIZE)%nat) by (unfold HISTORY_SIZE; lia).
  split; [exact H|].
  apply (isRecentlyActive_after_update HISTORY_SIZE
           (fun t => t - 1200000000) 16666667 16666667 1000000000 fresh H).
Defined.

Lemma isFrequent_whole_window_witness :
  Sorted Z.le (queueTimes steady)
  /\ isFrequent FREQUENT_LAYER_WINDOW_SIZE MAX_FREQUENT_LAYER_PERIOD_NS
       50000001 steady = Ok true.
Proof.
  assert (Hs : Sorted Z.le (queueTimes steady)).
  { assert (E : queueTimes steady = [16666667; 33333334; 50000001])
      by (vm_compute; reflexivity).
    rewrite E. repeat constructor; lia. }
  split; [exact Hs|].
  apply (isFrequent_whole_window FREQUENT_LAYER_WINDOW_SIZE
           MAX_FREQUENT_LAYER_PERIOD_NS 50000001 steady).
  - unfold FREQUENT_LAYER_WINDOW_SIZE. lia.
  - vm_compute. lia.
  - exact Hs.
Defined.

Lemma getRefreshRate_in_bounds_witness :
  (0 < FREQUENT_LAYER_WINDOW_SIZE)%nat
  /\ (0 < HISTORY_SIZE)%nat
  /\ exists v s',
       getRefreshRate HISTORY_SIZE FREQUENT_LAYER_WINDOW_SIZE
         MAX_FREQUENT_LAYER_PERIOD_NS HISTORY_TIME 16666667 firstFrame
       = Ok (v, s').
Proof.
  assert (Hw : (0 < FREQUENT_LAYER_WINDOW_SIZE)%nat)
    by (unfold FREQUENT_LAYER_WINDOW_SIZE; lia).
  assert (Hc : (0 < HISTORY_SIZE)%nat) by (unfold HISTORY_SIZE; lia).
  split; [exact Hw|]. split; [exact Hc|].
  apply (proj2 (getRefreshRate_in_bounds HISTORY_SIZE
                  FREQUENT_LAYER_WINDOW_SIZE MAX_FREQUENT_LAYER_PERIOD_NS
                  HISTORY_TIME 16666667 fresh Hw) Hc 16666667 16666667).
Defined.

Lemma enough_data_after_capacity_calls_witness :
  (length (mFrameTimes fresh) <= HISTORY_SIZE)%nat
  /\ (HISTORY_SIZE <= length steadyCalls)%nat
  /\ hasEnoughDataForHeuristic HISTORY_SIZE HISTORY_TIME steady = Ok true.
Proof.
  assert (H1 : (length (mFrameTimes fresh) <= HISTORY_SIZE)%nat)
    by (vm_compute; lia).
  assert (H2 : (HISTORY_SIZE <= length steadyCalls)%nat)
    by (vm_compute; lia).
  split; [exact H1|]. split; [exact H2|].
  apply (enough_data_after_capacity_calls HISTORY_SIZE HISTORY_TIME
           steadyCalls fresh H1 H2).
Defined.

Lemma single_sample_reports_previous_rate_witness :
  hasEnoughDataForHeuristic 1 HISTORY_TIME single = Ok true
  /\ calculateRefreshRateIfPossible 1 HISTORY_TIME single
     = Ok (Some F32.zero, single).
Proof.
  assert (H : hasEnoughDataForHeuristic 1 HISTORY_TIME single = Ok true)
    by (vm_compute; reflexivity).
  split; [exact H|].
  apply (single_sample_reports_previous_rate 1 HISTORY_TIME single
           {| presetTime := 16666667; queueTime := 16666667 |}
           eq_refl H).
Defined.

Lemma calculateRefreshRateIfPossible_idempotent_witness :
  calculateRefreshRateIfPossible HISTORY_SIZE HISTORY_TIME steady
  = Ok (Some rate60, steadyReported)
  /\ calculateRefreshRateIfPossible HISTORY_SIZE HISTORY_TIME steadyReported
     = Ok (Some rate60, steadyReported).
Proof.
  assert (H : calculateRefreshRateIfPossible HISTORY_SIZE HISTORY_TIME steady
              = Ok (Some rate60, steadyReported))
    by (vm_compute; reflexivity).
  split; [exact H|].
  apply (calculateRefreshRateIfPossible_idempotent HISTORY_SIZE HISTORY_TIME
           steady steadyReported rate60 H).
Defined.

Lemma heuristic_vote_never_nan_witness :
  getRefreshRate HISTORY_SIZE FREQUENT_LAYER_WINDOW_SIZE
    MAX_FREQUENT_LAYER_PERIOD_NS HISTORY_TIME 50000001 steady
  = Ok ((Heuristic, rate60), steadyReported)
  /\ isNaN rate60 = false
  /\ isNaN (mLastReportedRefreshRate steadyReported) = false.
Proof.
  assert (H : getRefreshRate HISTORY_SIZE FREQUENT_LAYER_WINDOW_SIZE
                MAX_FREQUENT_LAYER_PERIOD_NS HISTORY_TIME 50000001 steady
              = Ok ((Heuristic, rate60), steadyReported))
    by (vm_compute; reflexivity).
  split; [exact H|].
  apply (heuristic_vote_never_nan HISTORY_SIZE FREQUENT_LAYER_WINDOW_SIZE
           MAX_FREQUENT_LAYER_PERIOD_NS HISTORY_TIME 50000001 steady
           steadyReported Heuristic rate60 eq_refl eq_refl H).
Defined.

Lemma present_time_deltas_exact_witness :
  Forall (fun c => fst c <= Int64.max_signed) steadyCalls
  /\ deltas steady
     = map (exactDelta period60Hz) (pairs (mFrameTimes steady)).
Proof.
  assert (Hc : Forall (fun c => fst c <= Int64.max_signed) steadyCalls)
    by (unfold steadyCalls, Int64.max_signed; repeat constructor;
        simpl; lia).
  split; [exact Hc|].
  apply (present_time_deltas_exact HISTORY_SIZE steadyCalls fresh);
    [constructor | exact Hc].
Defined.

Lemma first_frame_votes_max_witness :
  getRefreshRate HISTORY_SIZE FREQUENT_LAYER_WINDOW_SIZE
    MAX_FREQUENT_LAYER_PERIOD_NS HISTORY_TIME 16666667 firstFrame
  = Ok ((Max, F32.zero), firstFrame).
Proof.
  apply (first_frame_votes_max HISTORY_SIZE FREQUENT_LAYER_WINDOW_SIZE
           MAX_FREQUENT_LAYER_PERIOD_NS HISTORY_TIME 16666667 16666667
           16666667 fresh).
  - reflexivity.
  - reflexivity.
  - unfold HISTORY_SIZE. lia.
  - unfold FREQUENT_LAYER_WINDOW_SIZE. lia.
  - unfold HISTORY_TIME. lia.
Defined.

Lemma default_vote_returned_witness :
  Max <> Heuristic
  /\ getRefreshRate HISTORY_SIZE FREQUENT_LAYER_WINDOW_SIZE
       MAX_FREQUENT_LAYER_PERIOD_NS HISTORY_TIME 50000001
       (recordAll HISTORY_SIZE steadyCalls freshMax)
     = Ok ((Max, F32.zero), recordAll HISTORY_SIZE steadyCalls freshMax).
Proof.
  assert (H : Max <> Heuristic) by discriminate.
  split; [exact H|].
  apply (default_vote_returned HISTORY_SIZE FREQUENT_LAYER_WINDOW_SIZE
           MAX_FREQUENT_LAYER_PERIOD_NS HISTORY_TIME period60Hz 50000001
           Max steadyCalls H).
Defined.

Lemma infrequent_votes_min_witness :
  getRefreshRate HISTORY_SIZE FREQUENT_LAYER_WINDOW_SIZE
    MAX_FREQUENT_LAYER_PERIOD_NS HISTORY_TIME 1000000000 steady
  = Ok ((Min, F32.zero), steady).
Proof.
  apply (infrequent_votes_min HISTORY_SIZE FREQUENT_LAYER_WINDOW_SIZE
           MAX_FREQUENT_LAYER_PERIOD_NS HISTORY_TIME 1000000000 steady
           {| presetTime := 16666667; queueTime := 16666667 |}
           [{| presetTime := 33333334; queueTime := 33333334 |};
            {| presetTime := 50000001; queueTime := 50000001 |}]).
  - reflexivity.
  - vm_compute. lia.
  - vm_compute. reflexivity.
  - vm_compute. reflexivity.
Defined.


Lemma isFrequent_in_bounds_iff_witness :
  exists b,
    isFrequent FREQUENT_LAYER_WINDOW_SIZE MAX_FREQUENT_LAYER_PERIOD_NS
      0 fresh = Ok b.
Proof.
  apply (proj2 (isFrequent_in_bounds_iff FREQUENT_LAYER_WINDOW_SIZE
                  MAX_FREQUENT_LAYER_PERIOD_NS 0 fresh)).
  unfold FREQUENT_LAYER_WINDOW_SIZE. lia.
Defined.

Lemma calculateRefreshRateIfPossible_out_of_bounds_iff_witness :
  calculateRefreshRateIfPossible HISTORY_SIZE HISTORY_TIME fresh
  = OutOfBounds.
Proof.
  apply (proj2 (calculateRefreshRateIfPossible_out_of_bounds_iff
                  HISTORY_SIZE HISTORY_TIME fresh)).
  reflexivity.
Defined.
